(** * analyze_benchmark_results.py: a shallow embedding and its properties

    The script compares two Criterion reports.  It is embedded here function
    by function: [parse_criterion_output], [parse_time_to_ns],
    [calculate_speedup] and [main].  Text is a list of Unicode code points,
    a Python [float] is a binary64 [PrimFloat.float], dictionaries are
    association lists in insertion order, and the two regular expressions of
    the script are run by a small backtracking matcher that lists the
    matches in the order in which [re] tries them. *)

From Stdlib Require Import String Ascii DecimalString.
From Stdlib Require Import ZArith NArith List Sorted Bool Lia Floats.
Import ListNotations.

Set Warnings "-inexact-float".
Local Open Scope list_scope.

(** ** Text *)

(** A character is its code point; a [str] is a Python [str]. *)
Definition char := N.
Definition str := list char.

(** [cp "abc"] is the text of an ASCII literal. *)
Definition cp (s : string) : str := map N_of_ascii (list_ascii_of_string s).

Definition str_eqb (a b : str) : bool :=
  if list_eq_dec N.eq_dec a b then true else false.

(** Python orders strings by code point, lexicographically. *)
Fixpoint str_ltb (a b : str) : bool :=
  match a, b with
  | [], [] => false
  | [], _ :: _ => true
  | _ :: _, [] => false
  | x :: a', y :: b' => (x <? y)%N || ((x =? y)%N && str_ltb a' b')
  end.

Fixpoint starts_with (p s : str) : bool :=
  match p, s with
  | [], _ => true
  | _ :: _, [] => false
  | x :: p', y :: s' => (x =? y)%N && starts_with p' s'
  end.

(** [t in s] on strings. *)
Fixpoint is_substring (t s : str) : bool :=
  starts_with t s ||
  match s with
  | [] => false
  | _ :: s' => is_substring t s'
  end.

Definition in_range (lo hi c : N) : bool := ((lo <=? c) && (c <=? hi))%N.

(** [Py_UNICODE_ISSPACE]: what [\s] matches and where [str.split()] cuts. *)
Definition is_space (c : char) : bool :=
  existsb (fun r => in_range (fst r) (snd r) c)
    [(9, 13); (28, 32); (133, 133); (160, 160); (5760, 5760); (8192, 8202);
     (8232, 8233); (8239, 8239); (8287, 8287); (12288, 12288)]%N.

(** The two character tables of the interpreter that the script relies on
    beyond ASCII: the decimal value of a digit ([Py_UNICODE_TODECIMAL]) and
    the alphanumeric test ([Py_UNICODE_ISALNUM]).  They depend on the Unicode
    version of the interpreter and are a parameter of the model; on ASCII
    the classes below do not consult them.  All that is assumed of them is
    that a digit or a letter is not a blank. *)
Record unicode_db := {
  uni_decimal : char -> option N;
  uni_alnum : char -> bool;
  (* no digit and no letter is a blank *)
  decimal_not_space : forall c, uni_decimal c <> None -> is_space c = false;
  alnum_not_space : forall c, uni_alnum c = true -> is_space c = false
}.

(** The tables with no entry beyond ASCII. *)
Definition ascii_db : unicode_db.
Proof.
  refine {| uni_decimal := fun _ => None; uni_alnum := fun _ => false |};
    intros; congruence.
Defined.

(** ** Exceptions *)

Inductive exn :=
| ValueError
| ZeroDivisionError
| OSError
| SystemExit (status : Z).

Inductive res (A : Type) :=
| Ok (a : A)
| Raise (e : exn).
Arguments Ok {A} a.
Arguments Raise {A} e.

Definition bind {A B} (m : res A) (f : A -> res B) : res B :=
  match m with
  | Ok a => f a
  | Raise e => Raise e
  end.

Notation "x <- m ;; k" := (bind m (fun x => k))
  (at level 61, m at next level, right associativity).

(** ** Regular expressions, as [re] runs them *)

(** The constructs of the script's two patterns: one character of a class, a
    greedy [+] or [*] over a class, concatenation, alternation and a
    numbered group. *)
Inductive regex :=
| Chr (p : char -> bool)
| Plus (p : char -> bool)
| Star (p : char -> bool)
| Cat (r1 r2 : regex)
| Alt (r1 r2 : regex)
| Grp (n : nat) (r : regex).

Definition caps := list (nat * str).

(** What is left of the input after [p+], longest repetition first. *)
Fixpoint splits (p : char -> bool) (s : str) : list str :=
  match s with
  | [] => []
  | c :: s' => if p c then splits p s' ++ [s'] else []
  end.

(** All the ways [r] matches a prefix of [s], in the order a backtracking
    matcher tries them: each is the rest of the input with the groups. *)
Fixpoint run (r : regex) (s : str) (g : caps) : list (str * caps) :=
  match r with
  | Chr p =>
      match s with
      | c :: s' => if p c then [(s', g)] else []
      | [] => []
      end
  | Plus p => map (fun s' => (s', g)) (splits p s)
  | Star p => map (fun s' => (s', g)) (splits p s ++ [s])
  | Cat r1 r2 => flat_map (fun m => run r2 (fst m) (snd m)) (run r1 s g)
  | Alt r1 r2 => run r1 s g ++ run r2 s g
  | Grp n r1 =>
      map (fun m => (fst m, (n, firstn (length s - length (fst m)) s) :: snd m))
          (run r1 s g)
  end.

(** [re.match]: the first match at the start of the string. *)
Definition re_match (r : regex) (s : str) : option (str * caps) :=
  hd_error (run r s []).

(** [match.group(n)] of a group that took part in the match. *)
Fixpoint group (g : caps) (n : nat) : str :=
  match g with
  | [] => []
  | (k, v) :: g' => if Nat.eqb k n then v else group g' n
  end.

(** [re.finditer]: scan left to right, resume after each match.  [skip]
    counts the characters of the last match still to step over.  Both
    patterns consume at least one character, so no match is empty. *)
Fixpoint finditer_from (r : regex) (s : str) (skip : nat) : list caps :=
  match s with
  | [] => []
  | _ :: s' =>
      match skip with
      | S k => finditer_from r s' k
      | O =>
          match re_match r s with
          | Some (rest, g) =>
              g :: finditer_from r s' (length s - length rest - 1)
          | None => finditer_from r s' 0
          end
      end
  end.

Definition finditer (r : regex) (s : str) : list caps := finditer_from r s 0.

Fixpoint lit (s : str) : regex :=
  match s with
  | [] => Star (fun _ => false)
  | [c] => Chr (N.eqb c)
  | c :: s' => Cat (Chr (N.eqb c)) (lit s')
  end.

(** ** Numbers *)

(** The binary64 nearest to [m / d] (ties to even), for [0 <= m], [0 < d]. *)
Definition float_of_ratio (m d : Z) : float :=
  match m with
  | Z0 => 0%float
  | _ =>
      let '(q, e, l) := SFdiv_core_binary prec emax m 0 d 0 in
      SF2Prim (binary_round_aux prec emax false q e l)
  end.

(** Decimal text of a natural number: [str(n)] for a count. *)
Definition N_to_str (n : N) : str :=
  cp (NilZero.string_of_uint (N.to_uint n)).

(** Nearest integer to [n / d], ties to even ([0 <= n], [0 < d]). *)
Definition round_half_even (n d : Z) : Z :=
  let q := (n / d)%Z in
  let r := (n mod d)%Z in
  match (2 * r ?= d)%Z with
  | Lt => q
  | Gt => (q + 1)%Z
  | Eq => if Z.even q then q else (q + 1)%Z
  end.

(** [f"{x:.2f}"]: the exact binary value rounded to two decimals. *)
Definition format_2f (x : float) : str :=
  let sign (s : bool) := if s then cp "-" else [] in
  match Prim2SF x with
  | S754_nan => cp "nan"
  | S754_infinity s => sign s ++ cp "inf"
  | S754_zero s => sign s ++ cp "0.00"
  | S754_finite s m e =>
      let h :=
        match e with
        | Zneg k => round_half_even (Zpos m * 100) (Zpos (2 ^ k))
        | _ => (Zpos m * 100 * 2 ^ e)%Z
        end in
      let cents := Z.to_N (h mod 100) in
      sign s ++ N_to_str (Z.to_N (h / 100)) ++ cp "." ++
      (if (cents <? 10)%N then cp "0" else []) ++ N_to_str cents
  end.

(** Python's true division of floats. *)
Definition py_div (x y : float) : res float :=
  if (y =? 0)%float then Raise ZeroDivisionError else Ok (x / y)%float.

(** ** String methods *)

(** [s.split()]: the maximal runs of non-blank characters.  [w] is the run
    being read, reversed. *)
Fixpoint split_from (w : str) (s : str) : list str :=
  match s with
  | [] => match w with [] => [] | _ => [rev w] end
  | c :: s' =>
      if is_space c
      then match w with [] => split_from [] s' | _ => rev w :: split_from [] s' end
      else split_from (c :: w) s'
  end.

Definition py_split (s : str) : list str := split_from [] s.

(** [s.replace(old, new)] for one-character [old] and [new]. *)
Definition replace_char (old new : char) (s : str) : str :=
  map (fun c => if (c =? old)%N then new else c) s.

Definition ascii_lower (c : char) : bool := in_range 97%N 122%N c.
Definition ascii_upper (c : char) : bool := in_range 65%N 90%N c.

(** [s.title()] on ASCII text, which is all the script applies it to (the
    category tags): a letter that follows a letter is lower-cased, any other
    letter is upper-cased.  [cased] tells whether the previous character was
    a letter.  Characters beyond ASCII are left as they are. *)
Fixpoint title_from (cased : bool) (s : str) : str :=
  match s with
  | [] => []
  | c :: s' =>
      if ascii_lower c then (if cased then c else (c - 32)%N) :: title_from true s'
      else if ascii_upper c then (if cased then (c + 32)%N else c) :: title_from true s'
      else c :: title_from false s'
  end.

Definition title (s : str) : str := title_from false s.

(** ** The script *)

Section Script.

Variable db : unicode_db.

(** [\d] and the digit value [float] reads. *)
Definition decimal_value (c : char) : option N :=
  if (c <? 128)%N
  then (if in_range 48%N 57%N c then Some (c - 48)%N else None)
  else uni_decimal db c.

Definition is_digit (c : char) : bool :=
  match decimal_value c with Some _ => true | None => false end.

(** [\w]. *)
Definition is_word (c : char) : bool :=
  (if (c <? 128)%N
   then in_range 48%N 57%N c || in_range 65%N 90%N c || in_range 97%N 122%N c
   else uni_alnum db c) || (c =? 95)%N.

(** [\S], [[\d.]], [[\w_]] and [[^\]]]. *)
Definition non_space (c : char) : bool := negb (is_space c).
Definition digit_or_dot (c : char) : bool := is_digit c || (c =? 46)%N.
Definition word_char (c : char) : bool := is_word c || (c =? 95)%N.
Definition not_closing (c : char) : bool := negb (c =? 93)%N.

(** [float(s)] for the only strings the script passes to it, those matched
    by [[\d.]+]: decimal digits with at most one point and at least one
    digit give the nearest binary64, any other arrangement of digits and
    points is a [ValueError].  (Signs, exponents, blanks and underscores
    cannot occur in the argument and are not modelled: they are reported as
    [ValueError] too.) *)
Fixpoint read_digits (acc : Z) (n : nat) (s : str) : Z * nat * str :=
  match s with
  | [] => (acc, n, [])
  | c :: s' =>
      match decimal_value c with
      | Some v => read_digits (10 * acc + Z.of_N v)%Z (S n) s'
      | None => (acc, n, s)
      end
  end.

Definition py_float (s : str) : res float :=
  let '(ip, ni, r1) := read_digits 0 0 s in
  match r1 with
  | [] => if Nat.eqb ni 0 then Raise ValueError else Ok (float_of_ratio ip 1)
  | c :: r2 =>
      if (c =? 46)%N then
        let '(m, nf, r3) := read_digits ip 0 r2 in
        match r3 with
        | [] =>
            if Nat.eqb (ni + nf) 0 then Raise ValueError
            else Ok (float_of_ratio m (10 ^ Z.of_nat nf))
        | _ :: _ => Raise ValueError
        end
      else Raise ValueError
  end.

(** [r'([\d.]+)\s*(\S+)'] *)
Definition time_re : regex :=
  Cat (Grp 1 (Plus digit_or_dot))
      (Cat (Star is_space) (Grp 2 (Plus non_space))).

(** The [conversions] dictionary.  The second key is spelled as the source
    file spells it: the three characters U+00C2 U+00B5 s. *)
Definition conversions : list (str * float) :=
  [ (cp "ns", 1.0);
    ([194; 181; 115]%N, 1000.0);
    (cp "us", 1000.0);
    (cp "ms", 1000000.0);
    (cp "s", 1000000000.0) ]%float.

(** [d.get(k, default)] *)
Fixpoint dict_get {V} (d : list (str * V)) (k : str) (default : V) : V :=
  match d with
  | [] => default
  | (k', v) :: d' => if str_eqb k' k then v else dict_get d' k default
  end.

Definition parse_time_to_ns (time_str : str) : res float :=
  match re_match time_re time_str with
  | None => Ok 0.0%float
  | Some (_, m) =>
      value <- py_float (group m 1) ;;
      let unit := group m 2 in
      Ok (value * dict_get conversions unit 1.0)%float
  end.

(** U+00C3 U+2014, the two characters the source has before "faster" and
    "slower". *)
Definition times_sign : str := [195; 8212]%N.

Definition calculate_speedup (main_ns current_ns : float) : res (float * str) :=
  if (main_ns =? 0)%float || (current_ns =? 0)%float then Ok (0.0%float, cp "N/A")
  else
    ratio <- py_div main_ns current_ns ;;
    if (1.0 <? ratio)%float then
      Ok (ratio, format_2f ratio ++ times_sign ++ cp " faster")
    else if (ratio <? 1.0)%float then
      regression <- py_div 1.0%float ratio ;;
      Ok (ratio, format_2f regression ++ times_sign ++ cp " slower (regression)")
    else Ok (1.0%float, cp "Same").

(** [r'(\S+/\S+/\d+|[\w_]+)\s+time:\s+\[([^\]]+)\]'] *)
Definition bench_re : regex :=
  Cat (Grp 1
         (Alt (Cat (Plus non_space)
                (Cat (Chr (N.eqb 47%N))
                   (Cat (Plus non_space) (Cat (Chr (N.eqb 47%N)) (Plus is_digit)))))
              (Plus word_char)))
    (Cat (Plus is_space)
       (Cat (lit (cp "time:"))
          (Cat (Plus is_space)
             (Cat (Chr (N.eqb 91%N))
                (Cat (Grp 2 (Plus not_closing))
                   (Chr (N.eqb 93%N))))))).

(** The value stored for a benchmark: [{'time': ..., 'full_time': ...}]. *)
Record record := { time : str; full_time : str }.

(** A dictionary keeps its keys in insertion order; assigning to a key that
    is present replaces the value where it stands. *)
Definition dict (V : Type) := list (str * V).

Fixpoint dict_set {V} (d : dict V) (k : str) (v : V) : dict V :=
  match d with
  | [] => [(k, v)]
  | (k', v') :: d' =>
      if str_eqb k' k then (k', v) :: d' else (k', v') :: dict_set d' k v
  end.

Definition keys {V} (d : dict V) : list str := map fst d.

(** The body of the [for match in re.finditer(...)] loop. *)
Definition add_match (benchmarks : dict record) (m : caps) : dict record :=
  let bench_name := group m 1 in
  let time_info := group m 2 in
  let times := py_split time_info in
  if 2 <=? length times then
    dict_set benchmarks bench_name
      {| time := nth 1 times []; full_time := time_info |}
  else benchmarks.

(** [parse_criterion_output] on the text [f.read()] returned. *)
Definition parse_criterion_text (content : str) : dict record :=
  fold_left add_match (finditer bench_re content) [].

(** The files: a path has the text that [open(path, 'r').read()] returns,
    or cannot be opened. *)
Definition files := str -> option str.

Definition parse_criterion_output (fs : files) (filename : str)
  : res (dict record) :=
  match fs filename with
  | Some content => Ok (parse_criterion_text content)
  | None => Raise OSError
  end.

(** *** Output *)

(** What has been written to the two streams. *)
Record world := { stdout : str; stderr : str }.

Definition io (A : Type) := world -> res A * world.

Definition ret {A} (a : A) : io A := fun w => (Ok a, w).

Definition iobind {A B} (m : io A) (f : A -> io B) : io B :=
  fun w =>
    match m w with
    | (Ok a, w') => f a w'
    | (Raise e, w') => (Raise e, w')
    end.

Notation "x <~ m ;; k" := (iobind m (fun x => k))
  (at level 61, m at next level, right associativity).
Notation "m ;;; k" := (iobind m (fun _ => k))
  (at level 61, right associativity).

Definition lift {A} (r : res A) : io A := fun w => (r, w).

Definition newline : str := [10%N].

(** [print(s)] *)
Definition print (s : str) : io unit :=
  fun w => (Ok tt, {| stdout := stdout w ++ s ++ newline; stderr := stderr w |}).

(** [print(s, file=sys.stderr)] *)
Definition eprint (s : str) : io unit :=
  fun w => (Ok tt, {| stdout := stdout w; stderr := stderr w ++ s ++ newline |}).

Definition sys_exit {A} (status : Z) : io A := lift (Raise (SystemExit status)).

Fixpoint for_each {A} (l : list A) (body : A -> io unit) : io unit :=
  match l with
  | [] => ret tt
  | x :: l' => body x ;;; for_each l' body
  end.

(** *** The benchmark names and their categories *)

Fixpoint insert_sorted (x : str) (l : list str) : list str :=
  match l with
  | [] => [x]
  | y :: l' =>
      if str_ltb x y then x :: l
      else if str_eqb x y then l
      else y :: insert_sorted x l'
  end.

(** [sorted(set(a) | set(b))]: the distinct names of both lists in ascending
    order.  The iteration order of the set does not show: [sorted] returns
    the one ascending arrangement of its distinct elements. *)
Definition sorted_union (a b : list str) : list str :=
  fold_right insert_sorted [] (a ++ b).

Definition category_tags : list str :=
  [ cp "prefix_fast_path"; cp "bulk_insertion"; cp "cow_clone";
    cp "pattern_matching"; cp "rule_matching"; cp "type_lookup";
    cp "evaluation"; cp "scalability"; cp "other" ].

(** The [categories] dictionary as it is created. *)
Definition empty_categories : dict (list str) :=
  map (fun tag => (tag, [])) category_tags.

(** [categories[k].append(x)] *)
Definition dict_append (d : dict (list str)) (k x : str) : dict (list str) :=
  map (fun kv => if str_eqb (fst kv) k then (fst kv, snd kv ++ [x]) else kv) d.

(** The body of [for bench in all_benchmarks]: the first key that occurs in
    the name takes it, and [other] when none does. *)
Definition categorize_one (categories : dict (list str)) (bench : str)
  : dict (list str) :=
  match find (fun category => is_substring category bench) (keys categories) with
  | Some category => dict_append categories category bench
  | None => dict_append categories (cp "other") bench
  end.

Definition categorize (all_benchmarks : list str) : dict (list str) :=
  fold_left categorize_one all_benchmarks empty_categories.

(** *** The report *)

(** The markers, as the source file spells them. *)
Definition mark_improved : str := [226; 339; 8230]%N.
Definition mark_regressed : str := [226; 338]%N.
Definition mark_similar : str := [226; 382; 8211]%N.
Definition mark_warning : str := [226; 353; 160; 239; 184]%N.
Definition mark_success : str := [240; 376; 381; 8240]%N.
Definition plus_minus : str := [194; 177]%N.

Definition NA : str := cp "N/A".

(** [results.get(bench, {}).get('time', 'N/A')] *)
Definition time_of (results : dict record) (bench : str) : str :=
  match find (fun kv => str_eqb (fst kv) bench) results with
  | Some kv => time (snd kv)
  | None => NA
  end.

(** The speedup cell of a row. *)
Definition speedup_cell (main_time current_time : str) : res str :=
  if negb (str_eqb main_time NA) && negb (str_eqb current_time NA) then
    main_ns <- parse_time_to_ns main_time ;;
    current_ns <- parse_time_to_ns current_time ;;
    rs <- calculate_speedup main_ns current_ns ;;
    let ratio := fst rs in
    let speedup_str := snd rs in
    if (1.1 <? ratio)%float then Ok (mark_improved ++ cp " " ++ speedup_str)
    else if (ratio <? 0.9)%float then Ok (mark_regressed ++ cp " " ++ speedup_str)
    else Ok (mark_similar ++ cp " " ++ speedup_str)
  else Ok NA.

Definition print_row (main_results current_results : dict record) (bench : str)
  : io unit :=
  let main_time := time_of main_results bench in
  let current_time := time_of current_results bench in
  speedup_str <~ lift (speedup_cell main_time current_time) ;;
  print (cp "| `" ++ bench ++ cp "` | " ++ main_time ++ cp " | " ++
         current_time ++ cp " | " ++ speedup_str ++ cp " |").

Definition print_category (main_results current_results : dict record)
  (entry : str * list str) : io unit :=
  let category := fst entry in
  let benches := snd entry in
  match benches with
  | [] => ret tt
  | _ :: _ =>
      print (cp "## " ++ title (replace_char 95%N 32%N category) ++ newline) ;;;
      print (cp "| Benchmark | Main Branch | Current Branch | Speedup |") ;;;
      print (cp "|-----------|-------------|----------------|---------|") ;;;
      for_each benches (print_row main_results current_results) ;;;
      print []
  end.

(** The three counters of the summary. *)
Record counts := { improvements : N; regressions : N; similar : N }.

(** The body of the summary loop. *)
Definition count_one (main_results current_results : dict record)
  (c : counts) (bench : str) : res counts :=
  let main_time := time_of main_results bench in
  let current_time := time_of current_results bench in
  if negb (str_eqb main_time NA) && negb (str_eqb current_time NA) then
    main_ns <- parse_time_to_ns main_time ;;
    current_ns <- parse_time_to_ns current_time ;;
    rs <- calculate_speedup main_ns current_ns ;;
    let ratio := fst rs in
    if (1.1 <? ratio)%float then
      Ok {| improvements := improvements c + 1; regressions := regressions c;
            similar := similar c |}
    else if (ratio <? 0.9)%float then
      Ok {| improvements := improvements c; regressions := regressions c + 1;
            similar := similar c |}
    else
      Ok {| improvements := improvements c; regressions := regressions c;
            similar := similar c + 1 |}
  else Ok c.

Fixpoint count_all (main_results current_results : dict record)
  (c : counts) (benches : list str) : res counts :=
  match benches with
  | [] => Ok c
  | bench :: rest =>
      c' <- count_one main_results current_results c bench ;;
      count_all main_results current_results c' rest
  end.

Definition usage : str :=
  cp "Usage: python3 analyze_benchmark_results.py main_results.txt current_results.txt".

Definition print_summary (c : counts) : io unit :=
  let total := (improvements c + regressions c + similar c)%N in
  print (cp "- **Total benchmarks**: " ++ N_to_str total) ;;;
  print (cp "- **Improvements** (>10% faster): " ++ N_to_str (improvements c) ++
         cp " " ++ mark_improved) ;;;
  print (cp "- **Regressions** (>10% slower): " ++ N_to_str (regressions c) ++
         cp " " ++ mark_regressed) ;;;
  print (cp "- **Similar** (" ++ plus_minus ++ cp "10%): " ++ N_to_str (similar c) ++
         cp " " ++ mark_similar) ;;;
  if (0 <? regressions c)%N then
    print (newline ++ mark_warning ++
           cp " **WARNING**: Performance regressions detected!")
  else if (0 <? improvements c)%N then
    print (newline ++ mark_success ++
           cp " **Success**: Performance improvements detected!")
  else ret tt.

(** Everything [main] prints after the two files are parsed. *)
Definition report (main_file current_file : str)
  (main_results current_results : dict record) : io unit :=
  print (cp "# Branch Comparison Benchmark Report" ++ newline) ;;;
  print (cp "**Main Branch Results**: `" ++ main_file ++ cp "`") ;;;
  print (cp "**Current Branch Results**: `" ++ current_file ++ cp "`" ++ newline) ;;;
  let all_benchmarks := sorted_union (keys main_results) (keys current_results) in
  let categories := categorize all_benchmarks in
  for_each categories (print_category main_results current_results) ;;;
  print (cp "## Summary" ++ newline) ;;;
  c <~ lift (count_all main_results current_results
               {| improvements := 0%N; regressions := 0%N; similar := 0%N |}
               all_benchmarks) ;;
  print_summary c.

(** [main()], with [sys.argv] and the files as arguments. *)
Definition main (argv : list str) (fs : files) : io unit :=
  if negb (length argv =? 3) then
    eprint usage ;;; sys_exit 1
  else
    let main_file := nth 1 argv [] in
    let current_file := nth 2 argv [] in
    main_results <~ lift (parse_criterion_output fs main_file) ;;
    current_results <~ lift (parse_criterion_output fs current_file) ;;
    report main_file current_file main_results current_results.

(** How the process ends: [main] returns or calls [sys.exit], or an
    exception is left uncaught (the interpreter then prints a traceback,
    which is not modelled, and the status is 1). *)
Inductive ending :=
| Exited (status : Z)
| Uncaught (e : exn).

Definition exit_status (e : ending) : Z :=
  match e with
  | Exited status => status
  | Uncaught _ => 1
  end.

(** One run of the script from empty streams. *)
Definition run_script (argv : list str) (fs : files) : ending * world :=
  match main argv fs {| stdout := []; stderr := [] |} with
  | (Ok _, w) => (Exited 0, w)
  | (Raise (SystemExit status), w) => (Exited status, w)
  | (Raise e, w) => (Uncaught e, w)
  end.

End Script.

Notation "x <~ m ;; k" := (iobind m (fun x => k))
  (at level 61, m at next level, right associativity).
Notation "m ;;; k" := (iobind m (fun _ => k))
  (at level 61, right associativity).

(** ** Vocabulary of the statements *)

(** *** Order *)

Definition str_lt (a b : str) : Prop := str_ltb a b = true.

Definition ascending (l : list str) : Prop := StronglySorted str_lt l.

(** *** Categories *)

(** The category a name belongs to: the first tag, in declaration order,
    that occurs in the name, and [other] when none does. *)
Definition category_of (bench : str) : str :=
  match find (fun tag => is_substring tag bench) category_tags with
  | Some tag => tag
  | None => cp "other"
  end.

(** *** Matching *)

(** Whether [s] begins with a character of the class [p]. *)
Definition starts (p : char -> bool) (s : str) : bool :=
  match s with
  | c :: _ => p c
  | [] => false
  end.

(** What is left of [w ++ s] after each non-empty prefix of [w] but the
    longest first. *)
Fixpoint rests (w s : str) : list str :=
  match w with
  | [] => []
  | _ :: w' => rests w' s ++ [w' ++ s]
  end.

Definition not_blank (c : char) : bool := negb (c =? 32)%N.

(** The alternation of group 1, [\S+/\S+/\d+|[\w_]+]. *)
Definition name_re (db : unicode_db) : regex :=
  Alt (Cat (Plus non_space)
         (Cat (Chr (N.eqb 47%N))
            (Cat (Plus non_space) (Cat (Chr (N.eqb 47%N)) (Plus (is_digit db))))))
      (Plus (word_char db)).

(** What follows group 1 in the pattern: [\s+time:\s+\[([^\]]+)\]]. *)
Definition line_tail_re : regex :=
  Cat (Plus is_space)
    (Cat (lit (cp "time:"))
       (Cat (Plus is_space)
          (Cat (Chr (N.eqb 91%N))
             (Cat (Grp 2 (Plus not_closing))
                (Chr (N.eqb 93%N)))))).

(** *** Well-formed lines *)

(** A token: blank-free and not empty. *)
Definition token (s : str) : bool :=
  match s with
  | [] => false
  | _ :: _ => forallb non_space s
  end.

(** A token of the bracketed segment: it holds no closing bracket. *)
Definition value_token (s : str) : bool :=
  token s && forallb not_closing s.

(** The two shapes of a benchmark name: [token/token/digits] and a bare
    identifier. *)
Inductive bench_name :=
| Path (t1 t2 digits : str)
| Ident (w : str).

Definition name_text (n : bench_name) : str :=
  match n with
  | Path t1 t2 digits => t1 ++ cp "/" ++ t2 ++ cp "/" ++ digits
  | Ident w => w
  end.

Definition well_formed_name (db : unicode_db) (n : bench_name) : bool :=
  match n with
  | Path t1 t2 digits =>
      token t1 && token t2 &&
      match digits with [] => false | _ :: _ => forallb (is_digit db) digits end
  | Ident w =>
      match w with
      | [] => false
      | _ :: _ => forallb (word_char db) w
      end
  end.

(** The number a string of digits denotes. *)
Definition digits_number (db : unicode_db) (ds : str) : Z :=
  fst (fst (read_digits db 0 0 ds)).

(** *** Runs *)

(** [m] ends with [r] after appending [o] to the standard output, whatever
    had been written, and leaves the error stream alone. *)
Definition acts {A} (m : io A) (r : res A) (o : str) : Prop :=
  forall w, m w = (r, {| stdout := stdout w ++ o; stderr := stderr w |}).

(** Every action of the report has one result and one output. *)
Definition regular {A} (m : io A) : Prop := exists r o, acts m r o.

(** An action that returns. *)
Definition succeeds (m : io unit) : Prop := exists o, acts m (Ok tt) o.

(** The three lines [main] prints first. *)
Definition header (main_file current_file : str) : str :=
  (cp "# Branch Comparison Benchmark Report" ++ newline) ++ newline ++
  (cp "**Main Branch Results**: `" ++ main_file ++ cp "`") ++ newline ++
  (cp "**Current Branch Results**: `" ++ current_file ++ cp "`" ++ newline) ++
  newline.

(** What [main] does after them. *)
Definition report_rest (db : unicode_db)
  (main_results current_results : dict record) : io unit :=
  let all_benchmarks := sorted_union (keys main_results) (keys current_results) in
  let categories := categorize all_benchmarks in
  for_each categories (print_category db main_results current_results) ;;;
  print (cp "## Summary" ++ newline) ;;;
  c <~ lift (count_all db main_results current_results
               {| improvements := 0%N; regressions := 0%N; similar := 0%N |}
               all_benchmarks) ;;
  print_summary c.

(** How a run that goes as far as the report ends. *)
Definition ending_of (r : res unit) : ending :=
  match r with
  | Ok _ => Exited 0
  | Raise (SystemExit status) => Exited status
  | Raise e => Uncaught e
  end.

(** Whether every speedup cell of the report can be computed: no time makes
    the conversion raise and no quotient makes the division raise. *)
Definition cells_return (db : unicode_db) (main_results current_results : dict record)
  : bool :=
  forallb
    (fun bench =>
       match speedup_cell db (time_of main_results bench)
                             (time_of current_results bench) with
       | Ok _ => true
       | Raise _ => false
       end)
    (sorted_union (keys main_results) (keys current_results)).

(** *** Concrete files *)

(** A file system with the two input files and nothing else. *)
Definition two_files (main_file main_text current_file current_text : str)
  : files :=
  fun path =>
    if str_eqb path main_file then Some main_text
    else if str_eqb path current_file then Some current_text
    else None.

(** The text of a list of lines. *)
Definition lines (l : list str) : str := concat (map (fun s => s ++ newline) l).

Definition example_argv : list str :=
  [cp "analyze_benchmark_results.py"; cp "main_results.txt";
   cp "current_results.txt"].

Definition example_files (main_text current_text : str) : files :=
  two_files (cp "main_results.txt") main_text
            (cp "current_results.txt") current_text.

Definition example_header : list str :=
  [cp "# Branch Comparison Benchmark Report"; [];
   cp "**Main Branch Results**: `main_results.txt`";
   cp "**Current Branch Results**: `current_results.txt`"; []].

Definition table_head : list str :=
  [cp "| Benchmark | Main Branch | Current Branch | Speedup |";
   cp "|-----------|-------------|----------------|---------|"].

Definition summary_lines (total improved regressed unchanged : str) : list str :=
  [cp "## Summary"; [];
   cp "- **Total benchmarks**: " ++ total;
   cp "- **Improvements** (>10% faster): " ++ improved ++ cp " " ++ mark_improved;
   cp "- **Regressions** (>10% slower): " ++ regressed ++ cp " " ++ mark_regressed;
   cp "- **Similar** (" ++ plus_minus ++ cp "10%): " ++ unchanged ++ cp " " ++
     mark_similar].

(** *** Parsed mappings and counters *)

(** The text of a line [<name> time: [<inner>]]. *)
Definition line_text (name inner : str) : str :=
  name ++ cp " time: [" ++ inner ++ cp "]".

(** The record the parser stores for the bracketed text [inner]. *)
Definition record_of (inner : str) : record :=
  {| time := nth 1 (py_split inner) []; full_time := inner |}.

(** What holds of every entry of a parsed mapping: the key is a token, the
    bracketed text has at least two tokens and no closing bracket, and the
    time is the second of them. *)
Definition entry_ok (kv : str * record) : bool :=
  token (fst kv) &&
  (2 <=? length (py_split (full_time (snd kv)))) &&
  str_eqb (time (snd kv)) (nth 1 (py_split (full_time (snd kv))) []) &&
  token (time (snd kv)) &&
  forallb not_closing (full_time (snd kv)).

(** Whether a benchmark has a time on both sides, as the report tests it. *)
Definition comparable (main_results current_results : dict record) (bench : str)
  : bool :=
  negb (str_eqb (time_of main_results bench) NA) &&
  negb (str_eqb (time_of current_results bench) NA).

Definition total (c : counts) : N :=
  (improvements c + regressions c + similar c)%N.


(** *** Files of well-formed lines *)

(** A line given by its name and its bracketed text, and what makes it
    well formed: a name of one of the two shapes and a bracketed text that
    is not empty and holds no closing bracket. *)
Definition well_formed_line (db : unicode_db) (l : bench_name * str) : bool :=
  well_formed_name db (fst l) &&
  match snd l with [] => false | _ :: _ => forallb not_closing (snd l) end.

Definition text_of_line (l : bench_name * str) : str :=
  line_text (name_text (fst l)) (snd l).

(** What the loop of the parser does with a line. *)
Definition add_line (d : dict record) (l : bench_name * str) : dict record :=
  if 2 <=? length (py_split (snd l))
  then dict_set d (name_text (fst l)) (record_of (snd l))
  else d.

(** Whether the line [l] gives the benchmark [k] a time. *)
Definition times_for (k : str) (l : bench_name * str) : bool :=
  str_eqb (name_text (fst l)) k && (2 <=? length (py_split (snd l))).

(** *** Cells and counters *)

(** The counters after a row whose speedup cell is [cell]. *)
Definition counted (cell : str) (c : counts) : counts :=
  if starts_with mark_improved cell then
    {| improvements := improvements c + 1; regressions := regressions c;
       similar := similar c |}
  else if starts_with mark_regressed cell then
    {| improvements := improvements c; regressions := regressions c + 1;
       similar := similar c |}
  else if starts_with mark_similar cell then
    {| improvements := improvements c; regressions := regressions c;
       similar := similar c + 1 |}
  else c.

(** The cell of a row that went from 12ns to 6ns. *)
Definition example_cell : str :=
  mark_improved ++ cp " " ++ cp "2.00" ++ times_sign ++ cp " faster".

(** *** Actions that raise *)



(** * Properties *)

(** ** Strings and their order *)

Lemma str_eqb_eq (a b : str) : str_eqb a b = true <-> a = b.
Proof.
  unfold str_eqb. destruct (list_eq_dec N.eq_dec a b); split; congruence.
Qed.

Lemma str_eqb_neq (a b : str) : str_eqb a b = false <-> a <> b.
Proof.
  unfold str_eqb. destruct (list_eq_dec N.eq_dec a b); split; congruence.
Qed.

Lemma str_eqb_refl (a : str) : str_eqb a a = true.
Proof. now apply str_eqb_eq. Qed.

Lemma str_eqb_sym (a b : str) : str_eqb a b = str_eqb b a.
Proof.
  destruct (str_eqb b a) eqn:E.
  - apply str_eqb_eq in E. subst. apply str_eqb_refl.
  - apply str_eqb_neq in E. apply str_eqb_neq. congruence.
Qed.

Lemma str_ltb_irrefl (a : str) : str_ltb a a = false.
Proof.
  induction a as [|x a IH]; simpl; [reflexivity|].
  rewrite N.ltb_irrefl, N.eqb_refl. exact IH.
Qed.

Lemma str_lt_trans (a b c : str) : str_lt a b -> str_lt b c -> str_lt a c.
Proof.
  unfold str_lt. revert b c.
  induction a as [|x a IH]; intros [|y b] [|z c]; simpl; try congruence.
  intros H1 H2.
  apply orb_true_iff in H1. apply orb_true_iff in H2. apply orb_true_iff.
  destruct H1 as [H1|H1], H2 as [H2|H2].
  - left. apply N.ltb_lt in H1, H2. apply N.ltb_lt. lia.
  - apply andb_true_iff in H2. destruct H2 as [H2 _].
    apply N.eqb_eq in H2. subst. now left.
  - apply andb_true_iff in H1. destruct H1 as [H1 _].
    apply N.eqb_eq in H1. subst. now left.
  - apply andb_true_iff in H1. apply andb_true_iff in H2.
    destruct H1 as [H1 H1'], H2 as [H2 H2'].
    apply N.eqb_eq in H1, H2. subst. right.
    rewrite N.eqb_refl. simpl. eapply IH; eassumption.
Qed.

Lemma str_ltb_total (a b : str) :
  str_ltb a b = false -> a <> b -> str_lt b a.
Proof.
  unfold str_lt. revert b.
  induction a as [|x a IH]; intros [|y b]; simpl; try congruence.
  intros H Hne. apply orb_false_iff in H. destruct H as [H1 H2].
  apply N.ltb_ge in H1. apply orb_true_iff.
  destruct (N.eqb_spec x y) as [->|Hxy].
  - right. rewrite N.eqb_refl. simpl in *. apply IH; congruence.
  - left. apply N.ltb_lt. lia.
Qed.

(** ** The sorted list of names *)

Lemma insert_sorted_In (x y : str) (l : list str) :
  In y (insert_sorted x l) <-> y = x \/ In y l.
Proof.
  induction l as [|z l IH]; simpl.
  - intuition.
  - destruct (str_ltb x z); [simpl; intuition|].
    destruct (str_eqb x z) eqn:E.
    + apply str_eqb_eq in E. subst. simpl. intuition.
    + simpl. rewrite IH. intuition.
Qed.

Lemma insert_sorted_ascending (x : str) (l : list str) :
  ascending l -> ascending (insert_sorted x l).
Proof.
  unfold ascending. induction 1 as [|z l Hl IH Hz]; simpl.
  - repeat constructor.
  - destruct (str_ltb x z) eqn:Elt.
    + constructor; [now constructor|].
      constructor; [exact Elt|].
      eapply Forall_impl; [|exact Hz].
      intros w Hw. eapply str_lt_trans; eassumption.
    + destruct (str_eqb x z) eqn:Eeq; [now constructor|].
      apply str_eqb_neq in Eeq.
      constructor; [exact IH|].
      apply Forall_forall. intros w Hw. apply insert_sorted_In in Hw.
      destruct Hw as [->|Hw].
      * now apply str_ltb_total.
      * rewrite Forall_forall in Hz. now apply Hz.
Qed.

Lemma sorted_union_In (a b : list str) (x : str) :
  In x (sorted_union a b) <-> In x a \/ In x b.
Proof.
  unfold sorted_union. rewrite <- in_app_iff.
  induction (a ++ b) as [|y l IH]; simpl; [tauto|].
  rewrite insert_sorted_In, IH. intuition.
Qed.

Lemma sorted_union_ascending (a b : list str) : ascending (sorted_union a b).
Proof.
  unfold sorted_union.
  induction (a ++ b) as [|y l IH]; simpl; [constructor|].
  now apply insert_sorted_ascending.
Qed.

Lemma ascending_NoDup (l : list str) : ascending l -> NoDup l.
Proof.
  induction 1 as [|x l Hl IH Hx]; constructor; [|exact IH].
  intros Hin. rewrite Forall_forall in Hx. specialize (Hx x Hin).
  unfold str_lt in Hx. now rewrite str_ltb_irrefl in Hx.
Qed.

(** There is one ascending arrangement of a set of names. *)
Lemma ascending_unique (l l' : list str) :
  ascending l -> ascending l' -> (forall x, In x l <-> In x l') -> l = l'.
Proof.
  intros Hl. revert l'. induction Hl as [|x l Hl IH Hx]; intros l' Hl' E.
  - destruct l' as [|y l']; [reflexivity|].
    exfalso. apply (E y). now left.
  - destruct Hl' as [|y l' Hl' Hy]; [exfalso; apply (E x); now left|].
    rewrite Forall_forall in Hx, Hy.
    assert (Exy : x = y).
    { destruct (proj1 (E x) (or_introl eq_refl)) as [<-|Hx']; [reflexivity|].
      destruct (proj2 (E y) (or_introl eq_refl)) as [<-|Hy']; [reflexivity|].
      exfalso. pose proof (str_lt_trans _ _ _ (Hx y Hy') (Hy x Hx')) as C.
      unfold str_lt in C. now rewrite str_ltb_irrefl in C. }
    subst y. f_equal. apply IH; [exact Hl'|].
    intros z. split; intros Hz.
    + destruct (proj1 (E z) (or_intror Hz)) as [<-|H]; [|exact H].
      specialize (Hx _ Hz). unfold str_lt in Hx.
      now rewrite str_ltb_irrefl in Hx.
    + destruct (proj2 (E z) (or_intror Hz)) as [<-|H]; [|exact H].
      specialize (Hy _ Hz). unfold str_lt in Hy.
      now rewrite str_ltb_irrefl in Hy.
Qed.

(** The sorted list depends on the set of names alone, not on the order in
    which the set yields them. *)
Lemma sorted_any_order (l l' : list str) :
  (forall x, In x l <-> In x l') ->
  fold_right insert_sorted [] l = fold_right insert_sorted [] l'.
Proof.
  intros E.
  assert (Hin : forall m x, In x (fold_right insert_sorted [] m) <-> In x m).
  { induction m as [|y m IH]; intros x; simpl; [tauto|].
    rewrite insert_sorted_In, IH. intuition. }
  assert (Hasc : forall m, ascending (fold_right insert_sorted [] m)).
  { induction m as [|y m IH]; simpl; [constructor|].
    now apply insert_sorted_ascending. }
  apply ascending_unique; [apply Hasc|apply Hasc|].
  intros x. now rewrite !Hin.
Qed.

Lemma ascending_filter (f : str -> bool) (l : list str) :
  ascending l -> ascending (filter f l).
Proof.
  induction 1 as [|x l Hl IH Hx]; simpl; [constructor|].
  destruct (f x); [|exact IH].
  constructor; [exact IH|].
  rewrite Forall_forall in *. intros y Hy. apply filter_In in Hy. now apply Hx.
Qed.

(** ** Categories *)

Lemma category_of_tag (bench : str) : In (category_of bench) category_tags.
Proof.
  unfold category_of.
  destruct (find _ category_tags) eqn:E.
  - now apply find_some in E.
  - unfold category_tags. simpl. tauto.
Qed.

(** The buckets after the names [l] have been filed, starting from
    buckets [f]. *)
Lemma categorize_from (f : str -> list str) (l : list str) :
  fold_left categorize_one l (map (fun tag => (tag, f tag)) category_tags) =
  map (fun tag =>
         (tag, f tag ++ filter (fun b => str_eqb tag (category_of b)) l))
      category_tags.
Proof.
  revert f. induction l as [|b l IH]; intros f; cbn [fold_left filter].
  - apply map_ext. intros tag. now rewrite app_nil_r.
  - assert (Hstep : categorize_one (map (fun tag => (tag, f tag)) category_tags) b =
                    map (fun tag => (tag, f tag ++
                           (if str_eqb tag (category_of b) then [b] else [])))
                        category_tags).
    { unfold categorize_one, keys. rewrite map_map. cbn [fst].
      rewrite map_id. fold (category_of b).
      assert (Hc : forall k, dict_append (map (fun tag => (tag, f tag)) category_tags) k b =
                   map (fun tag => (tag, f tag ++ (if str_eqb tag k then [b] else [])))
                       category_tags).
      { intros k. unfold dict_append. rewrite map_map. apply map_ext.
        intros tag. cbn [fst snd]. destruct (str_eqb tag k); [reflexivity|].
        now rewrite app_nil_r. }
      unfold category_of.
      destruct (find (fun tag => is_substring tag b) category_tags); apply Hc. }
    rewrite Hstep, IH. apply map_ext. intros tag.
    rewrite <- app_assoc. f_equal. f_equal.
    now destruct (str_eqb tag (category_of b)).
Qed.

Lemma categorize_buckets (l : list str) :
  categorize l =
  map (fun tag => (tag, filter (fun b => str_eqb tag (category_of b)) l))
      category_tags.
Proof.
  unfold categorize, empty_categories.
  now rewrite (categorize_from (fun _ => []) l).
Qed.

Lemma category_tags_NoDup : NoDup category_tags.
Proof.
  unfold category_tags.
  repeat (constructor; [intros H; vm_compute in H; intuition discriminate|]).
  constructor.
Qed.

Lemma buckets_In (l tags : list str) (x : str) :
  In x (concat (map (fun tag => filter (fun b => str_eqb tag (category_of b)) l) tags))
  <-> In x l /\ In (category_of x) tags.
Proof.
  rewrite in_concat. split.
  - intros [bucket [Hb Hx]]. apply in_map_iff in Hb.
    destruct Hb as [tag [<- Htag]]. apply filter_In in Hx.
    destruct Hx as [Hx E]. apply str_eqb_eq in E. subst. now split.
  - intros [Hx Htag]. eexists. split.
    + apply in_map_iff. exists (category_of x). split; [reflexivity|exact Htag].
    + apply filter_In. split; [exact Hx|apply str_eqb_refl].
Qed.

Lemma buckets_NoDup (l tags : list str) :
  NoDup l -> NoDup tags ->
  NoDup (concat (map (fun tag => filter (fun b => str_eqb tag (category_of b)) l) tags)).
Proof.
  intros Hl. induction 1 as [|tag tags Hnotin Htags IH]; cbn [map concat].
  - constructor.
  - apply NoDup_app; [now apply NoDup_filter|exact IH|].
    intros x Hx Hx'. apply filter_In in Hx. destruct Hx as [_ E].
    apply str_eqb_eq in E. apply buckets_In in Hx'. destruct Hx' as [_ Hx'].
    congruence.
Qed.

Lemma map_snd_buckets (l : list str) :
  map snd (categorize l) =
  map (fun tag => filter (fun b => str_eqb tag (category_of b)) l) category_tags.
Proof.
  rewrite categorize_buckets, map_map. reflexivity.
Qed.

Lemma keys_categorize (l : list str) : keys (categorize l) = category_tags.
Proof.
  unfold keys. rewrite categorize_buckets, map_map. cbn [fst]. apply map_id.
Qed.

Lemma bucket_of_entry (l : list str) (tag : str) (benches : list str) :
  In (tag, benches) (categorize l) ->
  In tag category_tags /\
  benches = filter (fun b => str_eqb tag (category_of b)) l.
Proof.
  rewrite categorize_buckets. intros H. apply in_map_iff in H.
  destruct H as [t [E Ht]]. inversion E; subst. now split.
Qed.

(** C5: the buckets built by the categorization loop partition the set of
    all benchmark names (the union of the keys of the two mappings).  The
    buckets stand in declaration order; a name is in some bucket exactly
    when it is a key of one of the mappings; no name occurs twice over all
    buckets; the bucket of a name is that of the first tag, in declaration
    order, that is a substring of it; and a name that contains no tag is in
    [other]. *)
Theorem C5_categories_partition (main_results current_results : dict record) :
  let all_benchmarks := sorted_union (keys main_results) (keys current_results) in
  let categories := categorize all_benchmarks in
  keys categories = category_tags /\
  (forall bench, In bench (concat (map snd categories)) <->
                 In bench (keys main_results) \/ In bench (keys current_results)) /\
  NoDup (concat (map snd categories)) /\
  (forall tag benches bench,
      In (tag, benches) categories -> In bench benches ->
      find (fun t => is_substring t bench) category_tags = Some tag \/
      (find (fun t => is_substring t bench) category_tags = None /\ tag = cp "other")) /\
  (forall bench,
      In bench all_benchmarks ->
      forallb (fun t => negb (is_substring t bench)) category_tags = true ->
      In bench (dict_get categories (cp "other") [])).
Proof.
  intros all_benchmarks categories. subst categories.
  split; [apply keys_categorize|].
  split; [|split; [|split]].
  - intros bench. rewrite map_snd_buckets, buckets_In.
    unfold all_benchmarks. rewrite sorted_union_In.
    pose proof (category_of_tag bench). tauto.
  - rewrite map_snd_buckets. apply buckets_NoDup.
    + apply ascending_NoDup, sorted_union_ascending.
    + apply category_tags_NoDup.
  - intros tag benches bench Hentry Hbench.
    apply bucket_of_entry in Hentry. destruct Hentry as [_ ->].
    apply filter_In in Hbench. destruct Hbench as [_ E].
    apply str_eqb_eq in E. subst tag. unfold category_of.
    destruct (find (fun t => is_substring t bench) category_tags); auto.
  - intros bench Hin Hnone.
    assert (Hc : category_of bench = cp "other").
    { unfold category_of.
      destruct (find (fun t => is_substring t bench) category_tags) eqn:E;
        [|reflexivity].
      apply find_some in E. destruct E as [Ht Hs].
      rewrite forallb_forall in Hnone. specialize (Hnone _ Ht).
      now rewrite Hs in Hnone. }
    rewrite categorize_buckets. unfold category_tags.
    cbn [map dict_get]. 
    repeat (match goal with
            | |- context [str_eqb ?a ?b] =>
                let v := eval vm_compute in (str_eqb a b) in
                change (str_eqb a b) with v; cbv iota
            end).
    apply filter_In. split; [exact Hin|]. rewrite Hc. reflexivity.
Qed.

(** ** The matcher *)

Lemma splits_stop (p : char -> bool) (s : str) :
  starts p s = false -> splits p s = [].
Proof.
  destruct s as [|c s]; simpl; [reflexivity|]. now intros ->.
Qed.

Lemma splits_app (p : char -> bool) (w s : str) :
  forallb p w = true -> splits p (w ++ s) = splits p s ++ rests w s.
Proof.
  induction w as [|c w IH]; simpl; intros H.
  - now rewrite app_nil_r.
  - apply andb_true_iff in H. destruct H as [-> H].
    rewrite IH by exact H. now rewrite app_assoc.
Qed.

Lemma rests_head (w s : str) :
  w <> [] -> exists tl, rests w s = s :: tl.
Proof.
  induction w as [|c w IH]; [congruence|]. intros _.
  destruct w as [|c' w].
  - exists []. reflexivity.
  - destruct IH as [tl E]; [congruence|].
    cbn [rests] in *. rewrite E. eexists. reflexivity.
Qed.

Lemma splits_In (p : char -> bool) (s s' : str) :
  In s' (splits p s) <->
  exists w, w <> [] /\ forallb p w = true /\ s = w ++ s'.
Proof.
  revert s'. induction s as [|c s IH]; intros s'; simpl.
  - split; [tauto|]. intros [w [Hw [_ E]]].
    destruct w; [congruence|discriminate].
  - destruct (p c) eqn:Hc.
    + rewrite in_app_iff, IH. simpl. split.
      * intros [[w [Hw [Hp E]]]|[<-|[]]].
        -- exists (c :: w). simpl. rewrite Hc, Hp, E. repeat split. congruence.
        -- exists [c]. simpl. rewrite Hc. repeat split. congruence.
      * intros [w [Hw [Hp E]]]. destruct w as [|c' w]; [congruence|].
        simpl in *. inversion E; subst.
        apply andb_true_iff in Hp. destruct Hp as [_ Hp].
        destruct w as [|c'' w]; [now right; left|].
        left. exists (c'' :: w). repeat split; [congruence|exact Hp].
    + split; [simpl; tauto|]. intros [w [Hw [Hp E]]].
      destruct w as [|c' w]; [congruence|]. simpl in *.
      inversion E; subst. rewrite Hc in Hp. discriminate.
Qed.

Lemma In_run_Chr p s g s' g' :
  In (s', g') (run (Chr p) s g) <->
  g' = g /\ exists c, p c = true /\ s = c :: s'.
Proof.
  simpl. destruct s as [|c s]; [split; [simpl; tauto|intros [_ [c [_ E]]]; discriminate]|].
  destruct (p c) eqn:Hc; simpl.
  - split.
    + intros [E|[]]. inversion E; subst. split; [reflexivity|]. now exists c.
    + intros [-> [c' [_ E]]]. inversion E; subst. now left.
  - split; [tauto|]. intros [_ [c' [Hc' E]]]. inversion E; subst. congruence.
Qed.

Lemma In_run_Plus p s g s' g' :
  In (s', g') (run (Plus p) s g) <->
  g' = g /\ exists w, w <> [] /\ forallb p w = true /\ s = w ++ s'.
Proof.
  simpl. rewrite in_map_iff. split.
  - intros [x [E H]]. inversion E; subst. split; [reflexivity|].
    now apply splits_In.
  - intros [-> H]. exists s'. split; [reflexivity|]. now apply splits_In.
Qed.

Lemma In_run_Cat r1 r2 s g m :
  In m (run (Cat r1 r2) s g) <->
  exists s1 g1, In (s1, g1) (run r1 s g) /\ In m (run r2 s1 g1).
Proof.
  simpl. rewrite in_flat_map. split.
  - intros [[s1 g1] [H1 H2]]. now exists s1, g1.
  - intros [s1 [g1 [H1 H2]]]. now exists (s1, g1).
Qed.

Lemma In_run_Alt r1 r2 s g m :
  In m (run (Alt r1 r2) s g) <-> In m (run r1 s g) \/ In m (run r2 s g).
Proof. simpl. apply in_app_iff. Qed.

Lemma In_run_Grp n r s g s' g' :
  In (s', g') (run (Grp n r) s g) <->
  exists g1, In (s', g1) (run r s g) /\
             g' = (n, firstn (length s - length s') s) :: g1.
Proof.
  simpl. rewrite in_map_iff. split.
  - intros [[s1 g1] [E H]]. simpl in E. inversion E; subst. now exists g1.
  - intros [g1 [H ->]]. now exists (s', g1).
Qed.

Lemma In_run_lit t s g s' g' :
  In (s', g') (run (lit t) s g) <-> g' = g /\ s = t ++ s'.
Proof.
  revert s g. induction t as [|c t IH]; intros s g.
  - cbn [lit run]. rewrite splits_stop by (now destruct s). simpl.
    split; [intros [E|[]]; now inversion E|intros [-> ->]; now left].
  - destruct t as [|c' t].
    + change (lit [c]) with (Chr (N.eqb c)). rewrite In_run_Chr. simpl.
      split.
      * intros [-> [x [Hx ->]]]. apply N.eqb_eq in Hx. now subst.
      * intros [-> ->]. split; [reflexivity|]. exists c.
        now rewrite N.eqb_refl.
    + change (lit (c :: c' :: t)) with (Cat (Chr (N.eqb c)) (lit (c' :: t))).
      rewrite In_run_Cat. split.
      * intros [s1 [g1 [H1 H2]]]. apply In_run_Chr in H1.
        destruct H1 as [-> [x [Hx ->]]]. apply N.eqb_eq in Hx. subst x.
        apply IH in H2. destruct H2 as [-> ->]. now split.
      * intros [-> ->]. exists ((c' :: t) ++ s'), g. split.
        -- apply In_run_Chr. split; [reflexivity|]. exists c.
           now rewrite N.eqb_refl.
        -- apply IH. now split.
Qed.

(** A match takes a prefix of the input. *)
Lemma firstn_consumed (w s' : str) :
  firstn (length (w ++ s') - length s') (w ++ s') = w.
Proof.
  rewrite length_app, Nat.add_sub.
  rewrite firstn_app, Nat.sub_diag, firstn_all. simpl. apply app_nil_r.
Qed.

Lemma hd_error_unique {A} (l : list A) (x : A) :
  l <> [] -> (forall y, In y l -> y = x) -> hd_error l = Some x.
Proof.
  destruct l as [|y l]; [congruence|]. intros _ H. simpl.
  f_equal. apply H. now left.
Qed.

(** Two ways of cutting a text before a character that the first part
    cannot contain. *)
Lemma cut_prefix (P : char -> bool) (u v x y : str) (c : char) :
  u ++ c :: x = v ++ y ->
  forallb P v = true -> P c = false ->
  exists z, u = v ++ z /\ y = z ++ c :: x.
Proof.
  revert v. induction u as [|a u IH]; intros v E Hv Hc.
  - destruct v as [|b v].
    + exists []. simpl in *. now split.
    + simpl in *. inversion E; subst.
      apply andb_true_iff in Hv. destruct Hv as [Hb _]. congruence.
  - destruct v as [|b v].
    + exists (a :: u). simpl in *. now split.
    + simpl in *. inversion E; subst.
      apply andb_true_iff in Hv. destruct Hv as [_ Hv].
      destruct (IH v H1 Hv Hc) as [z [-> ->]]. now exists z.
Qed.

(** ** Character classes *)

Ltac range_cases :=
  repeat match goal with
         | |- context [(?a <=? ?b)%N] =>
             destruct (N.leb_spec a b); try lia; cbn [andb orb negb]
         end.

Lemma ascii_alnum_not_space (c : char) :
  in_range 48 57 c || in_range 65 90 c || in_range 97 122 c || (c =? 95)%N = true ->
  is_space c = false.
Proof.
  unfold is_space, in_range. cbn [existsb fst snd]. intros H.
  assert (Hc : (48 <= c <= 122)%N).
  { revert H. destruct (N.eqb_spec c 95); [lia|]. range_cases; discriminate. }
  clear H. range_cases; try reflexivity.
Qed.

Section Classes.

Variable db : unicode_db.

Lemma digit_not_space (c : char) : is_digit db c = true -> is_space c = false.
Proof.
  unfold is_digit, decimal_value. destruct (c <? 128)%N.
  - destruct (in_range 48 57 c) eqn:E; [|discriminate]. intros _.
    apply ascii_alnum_not_space. now rewrite E.
  - destruct (uni_decimal db c) eqn:E; [|discriminate]. intros _.
    apply (decimal_not_space db). congruence.
Qed.

Lemma word_not_space (c : char) :
  word_char db c = true -> is_space c = false.
Proof.
  unfold word_char, is_word. destruct (c <? 128)%N.
  - intros H. apply ascii_alnum_not_space.
    destruct (c =? 95)%N; [now rewrite !orb_true_r|].
    now rewrite !orb_false_r in *.
  - destruct (N.eqb_spec c 95) as [->|_]; [reflexivity|].
    rewrite !orb_false_r. apply (alnum_not_space db).
Qed.

Lemma forallb_digit_not_space (s : str) :
  forallb (is_digit db) s = true -> forallb non_space s = true.
Proof.
  rewrite !forallb_forall. intros H c Hc. unfold non_space.
  now rewrite digit_not_space by auto.
Qed.

End Classes.

(** ** Well-formed lines *)

Lemma token_inv (s : str) :
  token s = true -> s <> [] /\ forallb non_space s = true.
Proof. destruct s; simpl; [discriminate|]. intros H. split; congruence. Qed.

Lemma nonempty_inv {A} (s : list A) (b : bool) :
  match s with [] => false | _ :: _ => b end = true -> s <> [] /\ b = true.
Proof. destruct s; [discriminate|]. intros H. split; congruence. Qed.

Section Lines.

Variable db : unicode_db.

Lemma name_text_token (n : bench_name) :
  well_formed_name db n = true -> token (name_text n) = true.
Proof.
  destruct n as [t1 t2 ds|w]; simpl.
  - intros H. apply andb_true_iff in H. destruct H as [H H3].
    apply andb_true_iff in H. destruct H as [H1 H2].
    apply token_inv in H1, H2. destruct H1 as [N1 H1], H2 as [N2 H2].
    apply nonempty_inv in H3. destruct H3 as [N3 H3].
    apply forallb_digit_not_space in H3.
    destruct t1 as [|c t1]; [congruence|].
    change (forallb non_space ((c :: t1) ++ cp "/" ++ t2 ++ cp "/" ++ ds) = true).
    rewrite !forallb_app, H1, H2, H3. reflexivity.
  - intros H. apply nonempty_inv in H. destruct H as [N1 H].
    destruct w as [|c w]; [congruence|].
    change (forallb non_space (c :: w) = true).
    rewrite forallb_forall in *. intros x Hx. unfold non_space.
    now rewrite (word_not_space db) by auto.
Qed.

Lemma non_space_not_blank (s : str) :
  forallb non_space s = true -> forallb not_blank s = true.
Proof.
  rewrite !forallb_forall. intros H c Hc. specialize (H c Hc).
  unfold not_blank. destruct (N.eqb_spec c 32) as [->|_]; [discriminate H|reflexivity].
Qed.

(** Group 1 takes a non-empty piece of the input that holds no blank and
    sets no group. *)
Lemma name_re_consumes s g s' g' :
  In (s', g') (run (name_re db) s g) ->
  g' = g /\ exists w, w <> [] /\ forallb not_blank w = true /\ s = w ++ s'.
Proof.
  unfold name_re. rewrite In_run_Alt. intros [H|H].
  - apply In_run_Cat in H. destruct H as [s1 [g1 [H1 H]]].
    apply In_run_Cat in H. destruct H as [s2 [g2 [H2 H]]].
    apply In_run_Cat in H. destruct H as [s3 [g3 [H3 H]]].
    apply In_run_Cat in H. destruct H as [s4 [g4 [H4 H5]]].
    apply In_run_Plus in H1. destruct H1 as [-> [w1 [N1 [P1 ->]]]].
    apply In_run_Chr in H2. destruct H2 as [-> [c2 [P2 ->]]].
    apply In_run_Plus in H3. destruct H3 as [-> [w3 [N3 [P3 ->]]]].
    apply In_run_Chr in H4. destruct H4 as [-> [c4 [P4 ->]]].
    apply In_run_Plus in H5. destruct H5 as [-> [w5 [N5 [P5 ->]]]].
    apply N.eqb_eq in P2, P4. subst c2 c4.
    split; [reflexivity|].
    exists (w1 ++ 47%N :: w3 ++ 47%N :: w5). split; [|split].
    + destruct w1; [congruence|discriminate].
    + apply forallb_digit_not_space in P5.
      apply non_space_not_blank in P1, P3, P5.
      rewrite forallb_app. cbn [forallb]. rewrite forallb_app. cbn [forallb].
      now rewrite P1, P3, P5.
    + rewrite <- !app_assoc. cbn [app]. rewrite <- !app_assoc. reflexivity.
  - apply In_run_Plus in H. destruct H as [-> [w [N1 [P1 ->]]]].
    split; [reflexivity|]. exists w. repeat split; [exact N1|].
    apply non_space_not_blank. rewrite forallb_forall in *.
    intros c Hc. unfold non_space. now rewrite (word_not_space db) by auto.
Qed.

(** A well-formed name is matched whole by group 1, whatever follows. *)
Lemma name_re_matches (n : bench_name) (rest : str) (g : caps) :
  well_formed_name db n = true ->
  In (rest, g) (run (name_re db) (name_text n ++ rest) g).
Proof.
  unfold name_re. rewrite In_run_Alt.
  destruct n as [t1 t2 ds|w]; cbn [name_text well_formed_name].
  - intros H. apply andb_true_iff in H. destruct H as [H H3].
    apply andb_true_iff in H. destruct H as [H1 H2].
    apply token_inv in H1, H2. destruct H1 as [N1 H1], H2 as [N2 H2].
    apply nonempty_inv in H3. destruct H3 as [N3 H3].
    left. change (cp "/") with [47%N]. rewrite <- !app_assoc. cbn [app].
    apply In_run_Cat. exists (47%N :: t2 ++ 47%N :: ds ++ rest), g. split.
    { apply In_run_Plus. split; [reflexivity|]. exists t1.
      repeat split; assumption. }
    apply In_run_Cat. exists (t2 ++ 47%N :: ds ++ rest), g. split.
    { apply In_run_Chr. split; [reflexivity|]. now exists 47%N. }
    apply In_run_Cat. exists (47%N :: ds ++ rest), g. split.
    { apply In_run_Plus. split; [reflexivity|]. exists t2.
      repeat split; assumption. }
    apply In_run_Cat. exists (ds ++ rest), g. split.
    { apply In_run_Chr. split; [reflexivity|]. now exists 47%N. }
    apply In_run_Plus. split; [reflexivity|]. exists ds.
    repeat split; assumption.
  - intros H. apply nonempty_inv in H. destruct H as [N1 H].
    right. apply In_run_Plus. split; [reflexivity|]. exists w.
    repeat split; assumption.
Qed.

End Lines.

Lemma bench_re_parts (db : unicode_db) :
  bench_re db = Cat (Grp 1 (name_re db)) line_tail_re.
Proof. reflexivity. Qed.

(** One blank before a character that is not a blank: [\s+] takes it and
    nothing else. *)
Lemma blank_then (c : char) (x s' : str) (g g' : caps) :
  is_space c = false ->
  In (s', g') (run (Plus is_space) (32%N :: c :: x) g) ->
  s' = c :: x /\ g' = g.
Proof.
  intros Hc H. apply In_run_Plus in H. destruct H as [-> [w [Nw [Pw E]]]].
  split; [|reflexivity].
  destruct (cut_prefix is_space [32%N] w x s' c E Pw Hc) as [z [E1 E2]].
  destruct w as [|a w]; [congruence|]. simpl in E1. inversion E1 as [[Ea Ez]].
  symmetry in Ez. apply app_eq_nil in Ez. destruct Ez as [_ ->]. exact E2.
Qed.

Lemma line_tail_text (inner rest : str) :
  cp " time: [" ++ inner ++ cp "]" ++ rest =
  32%N :: cp "time:" ++ 32%N :: 91%N :: inner ++ 93%N :: rest.
Proof. reflexivity. Qed.

Lemma line_tail_unique (inner rest s' : str) (g g' : caps) :
  forallb not_closing inner = true ->
  In (s', g') (run line_tail_re (cp " time: [" ++ inner ++ cp "]" ++ rest) g) ->
  s' = rest /\ g' = (2, inner) :: g.
Proof.
  intros Hin H. rewrite line_tail_text in H. unfold line_tail_re in H.
  apply In_run_Cat in H. destruct H as [s1 [g1 [H1 H]]].
  apply In_run_Cat in H. destruct H as [s2 [g2 [H2 H]]].
  apply In_run_Cat in H. destruct H as [s3 [g3 [H3 H]]].
  apply In_run_Cat in H. destruct H as [s4 [g4 [H4 H]]].
  apply In_run_Cat in H. destruct H as [s5 [g5 [H5 H6]]].
  apply (blank_then 116%N) in H1; [|reflexivity]. destruct H1 as [-> ->].
  apply In_run_lit in H2. destruct H2 as [-> E2].
  cbn in E2. injection E2 as E2. subst s2.
  apply (blank_then 91%N) in H3; [|reflexivity]. destruct H3 as [-> ->].
  apply In_run_Chr in H4. destruct H4 as [-> [c4 [_ E4]]].
  inversion E4; subst c4 s4. clear E4.
  apply In_run_Grp in H5. destruct H5 as [g0 [H5 ->]].
  apply In_run_Plus in H5. destruct H5 as [-> [w [Nw [Pw E5]]]].
  apply In_run_Chr in H6. destruct H6 as [-> [c6 [P6 ->]]].
  apply N.eqb_eq in P6. subst c6.
  assert (P93 : not_closing 93%N = false) by reflexivity.
  destruct (cut_prefix _ inner w rest (93%N :: s') 93%N E5 Pw P93) as [z [E1 E2]].
  destruct z as [|a z].
  - rewrite app_nil_r in E1. subst w. simpl in E2. inversion E2; subst s'.
    split; [reflexivity|]. now rewrite firstn_consumed.
  - simpl in E2. inversion E2; subst a. subst inner.
    rewrite forallb_app in Hin. simpl in Hin.
    rewrite andb_false_r in Hin. discriminate.
Qed.

Lemma line_tail_matches (inner rest : str) (g : caps) :
  inner <> [] ->
  forallb not_closing inner = true ->
  In (rest, (2, inner) :: g)
     (run line_tail_re (cp " time: [" ++ inner ++ cp "]" ++ rest) g).
Proof.
  intros Nin Hin. rewrite line_tail_text. unfold line_tail_re.
  apply In_run_Cat. exists (cp "time:" ++ 32%N :: 91%N :: inner ++ 93%N :: rest), g.
  split.
  { apply In_run_Plus. split; [reflexivity|]. exists [32%N].
    repeat split. discriminate. }
  apply In_run_Cat. exists (32%N :: 91%N :: inner ++ 93%N :: rest), g. split.
  { apply In_run_lit. now split. }
  apply In_run_Cat. exists (91%N :: inner ++ 93%N :: rest), g. split.
  { apply In_run_Plus. split; [reflexivity|]. exists [32%N].
    repeat split. discriminate. }
  apply In_run_Cat. exists (inner ++ 93%N :: rest), g. split.
  { apply In_run_Chr. split; [reflexivity|]. now exists 91%N. }
  apply In_run_Cat. exists (93%N :: rest), ((2, inner) :: g). split.
  { apply In_run_Grp. exists g. split.
    - apply In_run_Plus. split; [reflexivity|]. exists inner. now repeat split.
    - now rewrite firstn_consumed. }
  apply In_run_Chr. split; [reflexivity|]. now exists 93%N.
Qed.

(** The match of the pattern on a well-formed line: the whole line, with
    the name in group 1 and the bracketed text in group 2. *)
Lemma bench_re_line (db : unicode_db) (n : bench_name) (inner rest : str) :
  well_formed_name db n = true ->
  inner <> [] ->
  forallb not_closing inner = true ->
  re_match (bench_re db)
    (name_text n ++ cp " time: [" ++ inner ++ cp "]" ++ rest) =
  Some (rest, [(2, inner); (1, name_text n)]).
Proof.
  intros Hn Nin Hin. unfold re_match. rewrite bench_re_parts.
  set (tail := cp " time: [" ++ inner ++ cp "]" ++ rest).
  apply hd_error_unique.
  - intros E.
    assert (H : In (rest, [(2, inner); (1, name_text n)])
                   (run (Cat (Grp 1 (name_re db)) line_tail_re)
                        (name_text n ++ tail) [])).
    { apply In_run_Cat. exists tail, [(1, name_text n)]. split.
      - apply In_run_Grp. exists []. split.
        + now apply name_re_matches.
        + now rewrite firstn_consumed.
      - now apply line_tail_matches. }
    rewrite E in H. exact H.
  - intros [s' g'] H.
    apply In_run_Cat in H. destruct H as [s1 [g1 [H1 H2]]].
    apply In_run_Grp in H1. destruct H1 as [g0 [H1 ->]].
    apply name_re_consumes in H1. destruct H1 as [-> [w [Nw [Pw E]]]].
    assert (Hs1 : s1 = tail /\ w = name_text n).
    { pose proof (name_text_token db n Hn) as Ht.
      apply token_inv in Ht. destruct Ht as [_ Ht].
      assert (P32 : not_blank 32%N = false) by reflexivity.
      unfold tail in E. rewrite line_tail_text in E.
      destruct (cut_prefix not_blank (name_text n) w _ s1 32%N E Pw P32)
        as [z [E1 E2]].
      destruct z as [|a z].
      - rewrite app_nil_r in E1. now subst.
      - exfalso. unfold line_tail_re in H2.
        apply In_run_Cat in H2. destruct H2 as [s2 [g2 [H2 _]]].
        apply In_run_Plus in H2. destruct H2 as [_ [v [Nv [Pv Ev]]]].
        rewrite E1, forallb_app in Ht. apply andb_true_iff in Ht.
        destruct Ht as [_ Ht]. simpl in Ht. apply andb_true_iff in Ht.
        destruct Ht as [Ha _]. unfold non_space in Ha.
        destruct v as [|b v]; [congruence|].
        rewrite E2 in Ev. simpl in Ev. inversion Ev; subst b.
        simpl in Pv. apply andb_true_iff in Pv. destruct Pv as [Pa _].
        rewrite Pa in Ha. discriminate. }
    destruct Hs1 as [-> ->].
    apply line_tail_unique in H2; [|exact Hin]. destruct H2 as [-> ->].
    now rewrite firstn_consumed.
Qed.

(** ** The parser *)

Lemma finditer_skip_prefix (r : regex) (w rest : str) :
  finditer_from r (w ++ rest) (length w) = finditer_from r rest 0.
Proof.
  induction w as [|c w IH]; [reflexivity|]. exact IH.
Qed.

(** After a match at the start of the text the scan resumes where the
    match ended. *)
Lemma finditer_first (r : regex) (w rest : str) (g : caps) :
  w <> [] -> re_match r (w ++ rest) = Some (rest, g) ->
  finditer r (w ++ rest) = g :: finditer r rest.
Proof.
  intros Nw H. destruct w as [|c w]; [congruence|].
  unfold finditer. cbn [app finditer_from].
  change (c :: w ++ rest) with ((c :: w) ++ rest). rewrite H. f_equal.
  replace (length ((c :: w) ++ rest) - length rest - 1) with (length w).
  - apply finditer_skip_prefix.
  - rewrite length_app. cbn [length]. lia.
Qed.

Lemma split_from_token (w t s : str) :
  forallb non_space t = true -> split_from w (t ++ s) = split_from (rev t ++ w) s.
Proof.
  revert w. induction t as [|c t IH]; intros w H; [reflexivity|].
  simpl in H. apply andb_true_iff in H. destruct H as [Hc H].
  unfold non_space in Hc. apply negb_true_iff in Hc.
  simpl. rewrite Hc, IH by exact H. now rewrite <- app_assoc.
Qed.

Lemma split_from_blank (w s : str) :
  w <> [] -> split_from w (32%N :: s) = rev w :: split_from [] s.
Proof. destruct w; [congruence|reflexivity]. Qed.

Lemma py_split_three (a b c : str) :
  token a = true -> token b = true -> token c = true ->
  py_split (a ++ cp " " ++ b ++ cp " " ++ c) = [a; b; c].
Proof.
  intros Ha Hb Hc. apply token_inv in Ha, Hb, Hc.
  destruct Ha as [Na Ha], Hb as [Nb Hb], Hc as [Nc Hc].
  assert (Hrev : forall t : str, t <> [] -> rev t ++ [] <> []).
  { intros t Nt E. rewrite app_nil_r in E. apply (f_equal (@rev char)) in E.
    rewrite rev_involutive in E. now apply Nt. }
  unfold py_split. change (cp " ") with [32%N]. cbn [app].
  rewrite split_from_token, split_from_blank by auto.
  rewrite split_from_token, split_from_blank by auto.
  rewrite <- (app_nil_r c), split_from_token by auto.
  rewrite !app_nil_r, !rev_involutive. cbn [split_from].
  destruct (rev c) eqn:E; [|now rewrite <- E, rev_involutive].
  apply (f_equal (@rev char)) in E. rewrite rev_involutive in E. now subst.
Qed.

(** What the parser makes of a line [<name> time: [<inner>]], followed by
    text [rest] in which the pattern finds nothing. *)
Lemma parse_line (db : unicode_db) (n : bench_name) (inner rest : str) :
  well_formed_name db n = true ->
  inner <> [] ->
  forallb not_closing inner = true ->
  finditer (bench_re db) rest = [] ->
  parse_criterion_text db
    (name_text n ++ cp " time: [" ++ inner ++ cp "]" ++ rest) =
  if 2 <=? length (py_split inner) then
    [(name_text n, {| time := nth 1 (py_split inner) []; full_time := inner |})]
  else [].
Proof.
  intros Hn Nin Hin Hrest. unfold parse_criterion_text.
  pose proof (bench_re_line db n inner rest Hn Nin Hin) as H.
  assert (E : name_text n ++ cp " time: [" ++ inner ++ cp "]" ++ rest =
              (name_text n ++ cp " time: [" ++ inner ++ cp "]") ++ rest)
    by now rewrite <- !app_assoc.
  rewrite E in H |- *.
  rewrite (finditer_first _ _ _ [(2, inner); (1, name_text n)]); [|  | exact H].
  - rewrite Hrest. cbn [fold_left]. unfold add_match. cbn [group Nat.eqb].
    now destruct (2 <=? length (py_split inner)).
  - intros Z. apply app_eq_nil in Z. destruct Z as [_ Z]. discriminate Z.
Qed.

Lemma value_token_inv (s : str) :
  value_token s = true ->
  token s = true /\ forallb not_closing s = true.
Proof. unfold value_token. apply andb_true_iff. Qed.

(** C2: for every well-formed line [<name> time: [<a> <b> <c>]] (the name
    is [token/token/digits] or a bare identifier, the bracketed segment is
    three blank-separated tokens) the parser yields exactly one record, keyed
    by the name, whose [time] is the second token [<b>] and whose [full_time]
    is the bracketed text [<a> <b> <c>]; and when the bracketed segment of
    such a line splits into fewer than two tokens, no record is produced.
    The line may be followed by text in which the pattern finds nothing,
    such as the end of the line. *)
Theorem C2_parser_well_formed_line
  (db : unicode_db) (n : bench_name) (a b c rest : str) :
  well_formed_name db n = true ->
  value_token a = true -> value_token b = true -> value_token c = true ->
  finditer (bench_re db) rest = [] ->
  parse_criterion_text db
    (name_text n ++ cp " time: [" ++ (a ++ cp " " ++ b ++ cp " " ++ c) ++
     cp "]" ++ rest) =
    [(name_text n, {| time := b; full_time := a ++ cp " " ++ b ++ cp " " ++ c |})]
  /\
  (forall few : str,
      few <> [] ->
      forallb not_closing few = true ->
      length (py_split few) < 2 ->
      parse_criterion_text db
        (name_text n ++ cp " time: [" ++ few ++ cp "]" ++ rest) = []).
Proof.
  intros Hn Ha Hb Hc Hrest.
  apply value_token_inv in Ha, Hb, Hc.
  destruct Ha as [Ta Ha], Hb as [Tb Hb], Hc as [Tc Hc].
  split.
  - rewrite parse_line; [| exact Hn | | | exact Hrest].
    + now rewrite py_split_three.
    + apply token_inv in Ta. destruct Ta as [Na _].
      destruct a; [congruence|discriminate].
    + change (cp " ") with [32%N]. rewrite !forallb_app. cbn [forallb].
      now rewrite Ha, Hb, Hc.
  - intros few Nf Hf Hlen. rewrite parse_line by assumption.
    destruct (Nat.leb_spec 2 (length (py_split few))); [lia|reflexivity].
Qed.

Lemma C2_parser_well_formed_line_witness :
  parse_criterion_text ascii_db
    (cp "foo/bar/10 time: [10ns 12ns 14ns]" ++ newline) =
    [(cp "foo/bar/10",
      {| time := cp "12ns"; full_time := cp "10ns 12ns 14ns" |})]
  /\ parse_criterion_text ascii_db (cp "foo/bar/10 time: [12ns]" ++ newline) = [].
Proof.
  destruct (C2_parser_well_formed_line ascii_db
              (Path (cp "foo") (cp "bar") (cp "10"))
              (cp "10ns") (cp "12ns") (cp "14ns") newline
              eq_refl eq_refl eq_refl eq_refl eq_refl) as [H1 H2].
  split.
  - exact H1.
  - apply (H2 (cp "12ns")).
    + discriminate.
    + reflexivity.
    + simpl. lia.
Defined.

(** ** Floats *)

Lemma shr_exact_52 (m : positive) :
  iter_pos shr_1 52
    {| shr_m := Zpos (4503599627370496 * m); shr_r := false; shr_s := false |} =
  {| shr_m := Zpos m; shr_r := false; shr_s := false |}.
Proof. reflexivity. Qed.

Lemma digits_shift_52 (m : positive) :
  Zpos (digits2_pos (4503599627370496 * m)) = (Zpos (digits2_pos m) + 52)%Z.
Proof. cbn [Pos.mul digits2_pos]. rewrite !Pos2Z.inj_succ. lia. Qed.

(** Multiplying by [1.0] changes no binary64 value. *)
Lemma mul_one_r (x : float) : (x * 1)%float = x.
Proof.
  apply Prim2SF_inj. rewrite mul_spec.
  pose proof (Prim2SF_valid x) as V.
  change (Prim2SF 1) with (S754_finite false 4503599627370496 (-52)).
  destruct (Prim2SF x) as [s|s| |s m e];
    [destruct s; reflexivity | destruct s; reflexivity | reflexivity |].
  unfold SF64mul, SFmul. rewrite xorb_false_r, Pos.mul_comm.
  simpl in V. unfold bounded, canonical_mantissa in V.
  apply andb_true_iff in V. destruct V as [C B].
  apply Z.eqb_eq in C.
  unfold binary_round_aux, shr_fexp.
  unfold Zdigits2 at 1. rewrite digits_shift_52.
  replace (Z.pos (digits2_pos m) + 52 + (e + -52))%Z
    with (Z.pos (digits2_pos m) + e)%Z by lia.
  rewrite C.
  replace (e - (e + -52))%Z with 52%Z by lia.
  unfold shr at 1. cbn [shr_record_of_loc]. rewrite shr_exact_52.
  cbn [shr_m loc_of_shr_record round_nearest_even].
  replace (e + -52 + 52)%Z with e by lia.
  unfold Zdigits2. rewrite C.
  rewrite Z.sub_diag. cbn [shr shr_record_of_loc shr_m].
  now rewrite B.
Qed.

(** A value equal to [1.0] is neither above nor below it. *)
Lemma eqb_one_not_ltb (x : float) :
  (x =? 1)%float = true -> (1 <? x)%float = false /\ (x <? 1)%float = false.
Proof.
  rewrite eqb_spec, !ltb_spec.
  change (Prim2SF 1) with (S754_finite false 4503599627370496 (-52)).
  unfold SFeqb, SFltb.
  destruct (Prim2SF x) as [s|s| |s m e]; cbn [SFcompare];
    try discriminate; try (destruct s; discriminate).
  destruct s; [discriminate|].
  destruct (Z.compare_spec e (-52)) as [->| |]; try discriminate.
  rewrite Pos.compare_cont_spec. cbn [Pos.switch_Eq].
  destruct (Pos.compare_spec m 4503599627370496) as [->| |]; try discriminate.
  intros _. cbn [Z.compare Pos.compare]. rewrite !Pos.compare_cont_refl.
  now split.
Qed.

(** ** The time pattern *)

Lemma hd_run_Plus p (w s' : str) (g : caps) :
  w <> [] -> forallb p w = true -> starts p s' = false ->
  hd_error (run (Plus p) (w ++ s') g) = Some (s', g).
Proof.
  intros Nw Pw Hs. cbn [run].
  rewrite splits_app, (splits_stop p s') by assumption.
  destruct (rests_head w s' Nw) as [tl ->]. reflexivity.
Qed.

Lemma hd_run_Star p (w s' : str) (g : caps) :
  forallb p w = true -> starts p s' = false ->
  hd_error (run (Star p) (w ++ s') g) = Some (s', g).
Proof.
  intros Pw Hs. cbn [run].
  rewrite splits_app, (splits_stop p s') by assumption.
  destruct w as [|c w]; [reflexivity|].
  destruct (rests_head (c :: w) s') as [tl ->]; [discriminate|]. reflexivity.
Qed.

Lemma hd_run_Grp n r (s s' : str) (g g' : caps) :
  hd_error (run r s g) = Some (s', g') ->
  hd_error (run (Grp n r) s g) =
    Some (s', (n, firstn (length s - length s') s) :: g').
Proof.
  cbn [run]. destruct (run r s g) as [|m l]; [discriminate|].
  intros E. inversion E; subst. reflexivity.
Qed.

Lemma hd_run_Cat r1 r2 (s s1 : str) (g g1 : caps) (m : str * caps) :
  hd_error (run r1 s g) = Some (s1, g1) ->
  hd_error (run r2 s1 g1) = Some m ->
  hd_error (run (Cat r1 r2) s g) = Some m.
Proof.
  cbn [run]. destruct (run r1 s g) as [|m1 l]; [discriminate|].
  intros E. inversion E; subst. cbn [flat_map fst snd].
  destruct (run r2 s1 g1); [discriminate|]. now intros.
Qed.

Section Times.

Variable db : unicode_db.

(** The text [<number><blanks><unit>]: group 1 is the number and group 2 the
    unit, when the unit is a token that does not begin with a digit or a
    point. *)
Lemma time_re_number_unit (num blanks unit : str) :
  num <> [] -> forallb (digit_or_dot db) num = true ->
  forallb is_space blanks = true ->
  token unit = true -> starts (digit_or_dot db) (blanks ++ unit) = false ->
  re_match (time_re db) (num ++ blanks ++ unit) = Some ([], [(2, unit); (1, num)]).
Proof.
  intros Nn Pn Pb Tu Hs. apply token_inv in Tu. destruct Tu as [Nu Pu].
  unfold re_match, time_re.
  eapply hd_run_Cat.
  - apply hd_run_Grp. now apply hd_run_Plus.
  - rewrite firstn_consumed. eapply hd_run_Cat.
    + apply hd_run_Star; [exact Pb|].
      destruct unit as [|c u]; [congruence|]. simpl in Pu |- *.
      apply andb_true_iff in Pu. destruct Pu as [Pc _].
      unfold non_space in Pc. now apply negb_true_iff in Pc.
    + rewrite <- (app_nil_r unit) at 1.
      pose proof (hd_run_Grp 2 (Plus non_space) (unit ++ []) [] [(1, num)] [(1, num)]) as H.
      rewrite firstn_consumed in H. apply H.
      now apply hd_run_Plus.
Qed.

(** The normalizer on [<number><blanks><unit>]: the number read by [float],
    times the factor of the unit, and times 1 for a unit that is not in the
    table. *)
Lemma parse_time_number_unit (num blanks unit : str) :
  num <> [] -> forallb (digit_or_dot db) num = true ->
  forallb is_space blanks = true ->
  token unit = true -> starts (digit_or_dot db) (blanks ++ unit) = false ->
  parse_time_to_ns db (num ++ blanks ++ unit) =
  (value <- py_float db num ;; Ok (value * dict_get conversions unit 1)%float).
Proof.
  intros. unfold parse_time_to_ns.
  rewrite time_re_number_unit by assumption. reflexivity.
Qed.

Lemma conversions_unknown (unit : str) :
  existsb (str_eqb unit) (map fst conversions) = false ->
  dict_get conversions unit 1%float = 1%float.
Proof.
  unfold conversions. cbn [map fst existsb dict_get].
  rewrite !orb_false_iff. intros [H1 [H2 [H3 [H4 [H5 _]]]]].
  rewrite (str_eqb_sym _ unit), H1, (str_eqb_sym _ unit), H2,
    (str_eqb_sym _ unit), H3, (str_eqb_sym _ unit), H4,
    (str_eqb_sym _ unit), H5.
  reflexivity.
Qed.

(** A time that does not begin with a digit or a point is not matched and
    gives [0.0]. *)
Lemma parse_time_no_number (s : str) :
  starts (digit_or_dot db) s = false -> parse_time_to_ns db s = Ok 0%float.
Proof.
  intros H. unfold parse_time_to_ns, re_match, time_re. cbn [run].
  now rewrite (splits_stop _ s H).
Qed.

End Times.

(** ** Times made of digits only *)

Section Digits.

Variable db : unicode_db.

Lemma read_digits_all (acc : Z) (n : nat) (ds : str) :
  forallb (is_digit db) ds = true ->
  read_digits db acc n ds =
    (fst (fst (read_digits db acc n ds)), n + length ds, []).
Proof.
  revert acc n. induction ds as [|c ds IH]; intros acc n H.
  - simpl. now rewrite Nat.add_0_r.
  - simpl in H. apply andb_true_iff in H. destruct H as [Hc H].
    unfold is_digit in Hc. cbn [read_digits length].
    destruct (decimal_value db c); [|discriminate].
    rewrite IH by exact H. cbn [fst]. now rewrite Nat.add_succ_r.
Qed.

Lemma py_float_digits (ds : str) :
  ds <> [] -> forallb (is_digit db) ds = true ->
  py_float db ds = Ok (float_of_ratio (digits_number db ds) 1).
Proof.
  intros Nd H. unfold py_float, digits_number.
  rewrite (read_digits_all 0 0 ds H). cbn [fst].
  destruct ds; [congruence|reflexivity].
Qed.

Lemma digit_is_digit_or_dot (s : str) :
  forallb (is_digit db) s = true -> forallb (digit_or_dot db) s = true.
Proof.
  rewrite !forallb_forall. intros H c Hc. unfold digit_or_dot.
  now rewrite H.
Qed.

(** On two digits or more the pattern gives the last digit to group 2. *)
Lemma time_re_digits (ds : str) (d : char) :
  ds <> [] -> forallb (is_digit db) ds = true -> is_digit db d = true ->
  re_match (time_re db) (ds ++ [d]) = Some ([], [(2, [d]); (1, ds)]).
Proof.
  intros Nd Hds Hd. unfold re_match, time_re. cbn [run].
  rewrite splits_app by now apply digit_is_digit_or_dot.
  destruct (rests_head ds [d] Nd) as [tl ->].
  assert (Hdd : digit_or_dot db d = true) by (unfold digit_or_dot; now rewrite Hd).
  pose proof (digit_not_space db d Hd) as Hsp.
  assert (Hns : non_space d = true) by (unfold non_space; now rewrite Hsp).
  cbn [splits app map flat_map fst snd]. rewrite Hdd.
  cbn [splits app map flat_map fst snd]. rewrite Hsp.
  cbn [splits app map flat_map fst snd]. rewrite Hns.
  cbn [app map flat_map fst snd hd_error length Nat.sub firstn].
  replace (length (ds ++ [d]) - 1) with (length (ds ++ [d]) - length [d])
    by reflexivity.
  now rewrite firstn_consumed.
Qed.

Lemma digit_unit_unknown (d : char) :
  is_digit db d = true -> dict_get conversions [d] 1%float = 1%float.
Proof.
  intros Hd. apply conversions_unknown. cbn [conversions map fst existsb].
  assert (Hs : d <> 115%N) by (intros ->; discriminate Hd).
  rewrite !orb_false_iff.
  repeat split; apply str_eqb_neq; intros E; vm_compute in E; congruence.
Qed.

End Digits.

(** C3: the normalizer, as the code has it.  On a number, blanks and a unit
    the result is the number read by [float] times the factor of the unit,
    and the factors are 1 for [ns], 1000 for [us], 1000000 for [ms],
    1000000000 for [s] and 1 for a unit that is not in the table.  The
    strings of the specification give the values it states, but for the
    micro sign: the key of the table is the three-character string
    U+00C2 U+00B5 s, so the unit U+00B5 s is not in the table, and "10 "
    followed by U+00B5 s gives 10.0 where the specification says 10000.0;
    the text with the key as the table spells it gives 10000.0. *)
Theorem C3_normalizer_units (db : unicode_db) :
  (forall num blanks unit : str,
      num <> [] -> forallb (digit_or_dot db) num = true ->
      forallb is_space blanks = true ->
      token unit = true -> starts (digit_or_dot db) (blanks ++ unit) = false ->
      parse_time_to_ns db (num ++ blanks ++ unit) =
      (value <- py_float db num ;; Ok (value * dict_get conversions unit 1)%float)) /\
  (dict_get conversions (cp "ns") 1 = 1 /\
   dict_get conversions (cp "us") 1 = 1000 /\
   dict_get conversions (cp "ms") 1 = 1000000 /\
   dict_get conversions (cp "s") 1 = 1000000000 /\
   dict_get conversions [194; 181; 115]%N 1 = 1000 /\
   dict_get conversions [181; 115]%N 1 = 1)%float /\
  (forall (unit : str) (x : float),
      existsb (str_eqb unit) (map fst conversions) = false ->
      (x * dict_get conversions unit 1)%float = x) /\
  parse_time_to_ns db (cp "500 ns") = Ok 500%float /\
  parse_time_to_ns db (cp "1.5 ms") = Ok 1500000%float /\
  parse_time_to_ns db (cp "2 s") = Ok 2000000000%float /\
  parse_time_to_ns db (cp "10 us") = Ok 10000%float /\
  parse_time_to_ns db (cp "42 foo") = Ok 42%float /\
  parse_time_to_ns db (cp "10 " ++ [181; 115]%N) = Ok 10%float /\
  parse_time_to_ns db (cp "10 " ++ [194; 181; 115]%N) = Ok 10000%float.
Proof.
  split; [intros; now apply parse_time_number_unit|].
  split; [repeat split|].
  split; [intros unit x H; now rewrite conversions_unknown, mul_one_r|].
  repeat split; vm_compute; reflexivity.
Qed.

(** C9: [parse_time_to_ns] is not total.  On ["1.2.3 ns"] and on [". ns"]
    group 1 matches digits and points that are no float literal, and the
    conversion raises [ValueError]; so it does on every number, blanks and
    unit whose number [float] refuses.  Nothing catches the exception: a run
    on two files with the median token [1.2.3ns] ends with it. *)
Theorem C9_parse_time_not_total (db : unicode_db) :
  parse_time_to_ns db (cp "1.2.3 ns") = Raise ValueError /\
  parse_time_to_ns db (cp ". ns") = Raise ValueError /\
  re_match (time_re db) (cp "1.2.3 ns") =
    Some ([], [(2, cp "ns"); (1, cp "1.2.3")]) /\
  re_match (time_re db) (cp ". ns") = Some ([], [(2, cp "ns"); (1, cp ".")]) /\
  py_float db (cp "1.2.3") = Raise ValueError /\
  py_float db (cp ".") = Raise ValueError /\
  (forall num blanks unit : str,
      num <> [] -> forallb (digit_or_dot db) num = true ->
      forallb is_space blanks = true ->
      token unit = true -> starts (digit_or_dot db) (blanks ++ unit) = false ->
      py_float db num = Raise ValueError ->
      parse_time_to_ns db (num ++ blanks ++ unit) = Raise ValueError) /\
  fst (run_script db example_argv
         (example_files (cp "a/b/1 time: [1ns 1.2.3ns 2ns]")
                        (cp "a/b/1 time: [1ns 1.2.3ns 2ns]"))) =
    Uncaught ValueError.
Proof.
  repeat split; try (vm_compute; reflexivity).
  intros num blanks unit H1 H2 H3 H4 H5 E.
  rewrite parse_time_number_unit by assumption. now rewrite E.
Qed.

(** C10, as the code has it: a string of two or more digits is split before
    its last digit, which becomes the unit, and the result is the number
    that the digits before it denote; a string of one digit is not matched
    and gives 0.0. *)
Theorem C10_digits_only (db : unicode_db) (s : str) :
  forallb (is_digit db) s = true ->
  (length s = 1 -> parse_time_to_ns db s = Ok 0%float) /\
  (2 <= length s ->
   parse_time_to_ns db s = py_float db (removelast s) /\
   py_float db (removelast s) =
     Ok (float_of_ratio (digits_number db (removelast s)) 1)).
Proof.
  intros H. split.
  - intros L. destruct s as [|d [|d' s]]; try discriminate L.
    simpl in H. rewrite andb_true_r in H.
    unfold parse_time_to_ns, re_match, time_re, digit_or_dot. cbn [run splits].
    rewrite H. reflexivity.
  - intros L.
    assert (Ns : s <> []) by (destruct s; [simpl in L; lia|discriminate]).
    pose proof (app_removelast_last 0%N Ns) as E.
    assert (D : exists ds d, s = ds ++ [d]).
    { exists (removelast s), (last s 0%N). exact E. }
    clear E. destruct D as [ds [d ->]]. rewrite removelast_last.
    rewrite forallb_app in H. apply andb_true_iff in H.
    destruct H as [Hds Hd]. simpl in Hd. rewrite andb_true_r in Hd.
    assert (Nd : ds <> []).
    { intros Z. rewrite Z in L. simpl in L. lia. }
    split; [|now apply py_float_digits].
    unfold parse_time_to_ns.
    rewrite time_re_digits by assumption. cbn [group Nat.eqb].
    rewrite py_float_digits by assumption. cbn [bind].
    now rewrite (digit_unit_unknown db d Hd), mul_one_r.
Qed.

Lemma C10_digits_only_witness :
  parse_time_to_ns ascii_db (cp "42") = py_float ascii_db (cp "4") /\
  py_float ascii_db (cp "4") = Ok 4%float.
Proof.
  destruct (C10_digits_only ascii_db (cp "42") eq_refl) as [_ H].
  destruct H as [H1 H2]; [simpl; lia|].
  split; [exact H1|exact H2].
Defined.

(** The specification as stated fails on a single digit: ["7"] consists of
    digits only and yields 0.0, and so does ["00"]. *)
Lemma C10_single_digit_counterexample :
  forallb (is_digit ascii_db) (cp "7") = true /\
  (forall db, parse_time_to_ns db (cp "7") = Ok 0%float) /\
  (forall db, parse_time_to_ns db (cp "00") = Ok 0%float).
Proof.
  split; [reflexivity|]. split; intros db; reflexivity.
Qed.

(** ** The comparator *)

Lemma ltb_one_asym (x : float) :
  (x <? 1)%float = true -> (1 <? x)%float = false.
Proof.
  rewrite !ltb_spec.
  change (Prim2SF 1) with (S754_finite false 4503599627370496 (-52)).
  unfold SFltb.
  destruct (Prim2SF x) as [s|s| |s m e]; cbn [SFcompare];
    try discriminate; try (destruct s; (discriminate || reflexivity)).
  destruct s; [reflexivity|].
  rewrite (Z.compare_antisym e (-52)).
  destruct (e ?= -52)%Z; cbn [CompOpp]; try discriminate; try reflexivity.
  pose proof (Pos.compare_cont_antisym m 4503599627370496 Eq) as A.
  cbn [CompOpp] in A. rewrite <- A.
  destruct (Pos.compare_cont Eq m 4503599627370496); (discriminate || reflexivity).
Qed.

Lemma is_substring_app_r (t a s : str) :
  is_substring t s = true -> is_substring t (a ++ s) = true.
Proof.
  intros H. induction a as [|c a IH]; [exact H|].
  cbn [app is_substring]. rewrite IH. apply orb_true_r.
Qed.

(** C4, as the code has it.  With a zero on either side the comparator
    returns [(0.0, "N/A")].  Otherwise, with [ratio = main_ns / current_ns]:
    above 1.0 it returns the ratio and a label made of the ratio to two
    decimals and "faster"; below 1.0, and when the quotient is not 0.0, it
    returns the ratio and a label made of [1 / ratio] to two decimals and
    "slower (regression)"; equal to 1.0, and whenever the ratio is neither
    above nor below 1.0, it returns [(1.0, "Same")].  [compare(200, 100)] is
    ratio 2.0 with a "faster" label and [compare(100, 200)] is ratio 0.5 with
    a "regression" label.  (A quotient of two non-zero values that underflows
    to 0.0 is left out.) *)
Theorem C4_comparator_cases (main_ns current_ns : float) :
  ((main_ns =? 0)%float || (current_ns =? 0)%float = true ->
   calculate_speedup main_ns current_ns = Ok (0%float, cp "N/A")) /\
  ((main_ns =? 0)%float || (current_ns =? 0)%float = false ->
   let ratio := (main_ns / current_ns)%float in
   ((1 <? ratio)%float = true ->
    calculate_speedup main_ns current_ns =
      Ok (ratio, format_2f ratio ++ times_sign ++ cp " faster") /\
    is_substring (cp "faster")
      (format_2f ratio ++ times_sign ++ cp " faster") = true) /\
   ((ratio <? 1)%float = true -> (ratio =? 0)%float = false ->
    calculate_speedup main_ns current_ns =
      Ok (ratio, format_2f (1 / ratio)%float ++ times_sign ++
                 cp " slower (regression)") /\
    is_substring (cp "slower (regression)")
      (format_2f (1 / ratio)%float ++ times_sign ++
       cp " slower (regression)") = true) /\
   ((ratio =? 1)%float = true ->
    calculate_speedup main_ns current_ns = Ok (1%float, cp "Same")) /\
   ((1 <? ratio)%float = false -> (ratio <? 1)%float = false ->
    calculate_speedup main_ns current_ns = Ok (1%float, cp "Same"))) /\
  calculate_speedup 200 100 =
    Ok (2%float, cp "2.00" ++ times_sign ++ cp " faster") /\
  calculate_speedup 100 200 =
    Ok (0.5%float, cp "2.00" ++ times_sign ++ cp " slower (regression)").
Proof.
  split; [|split; [|split; reflexivity]].
  - intros H. unfold calculate_speedup. now rewrite H.
  - intros H ratio.
    assert (Hc : (current_ns =? 0)%float = false).
    { apply orb_false_iff in H. tauto. }
    assert (E : calculate_speedup main_ns current_ns =
                if (1 <? ratio)%float then
                  Ok (ratio, format_2f ratio ++ times_sign ++ cp " faster")
                else if (ratio <? 1)%float then
                  regression <- py_div 1 ratio ;;
                  Ok (ratio, format_2f regression ++ times_sign ++
                             cp " slower (regression)")
                else Ok (1%float, cp "Same")).
    { unfold calculate_speedup, py_div at 1. now rewrite H, Hc. }
    rewrite E. split; [|split; [|split]].
    + intros ->. split; [reflexivity|].
      apply is_substring_app_r. reflexivity.
    + intros Hlt Hz. rewrite (ltb_one_asym ratio Hlt), Hlt.
      unfold py_div. rewrite Hz. cbn [bind]. split; [reflexivity|].
      apply is_substring_app_r. reflexivity.
    + intros Heq. apply eqb_one_not_ltb in Heq. destruct Heq as [-> ->].
      reflexivity.
    + intros -> ->. reflexivity.
Qed.

Lemma C4_comparator_cases_witness :
  calculate_speedup 100 200 =
    Ok ((100 / 200)%float,
        format_2f (1 / (100 / 200))%float ++ times_sign ++
        cp " slower (regression)") /\
  calculate_speedup 3 2 =
    Ok ((3 / 2)%float, format_2f (3 / 2)%float ++ times_sign ++ cp " faster") /\
  calculate_speedup 0 5 = Ok (0%float, cp "N/A") /\
  calculate_speedup 7 7 = Ok (1%float, cp "Same").
Proof.
  destruct (C4_comparator_cases 100 200) as [_ [H _]].
  destruct (H eq_refl) as [_ [H1 _]].
  destruct (C4_comparator_cases 3 2) as [_ [H2 _]].
  destruct (H2 eq_refl) as [H3 _].
  destruct (C4_comparator_cases 0 5) as [H4 _].
  destruct (C4_comparator_cases 7 7) as [_ [H5 _]].
  destruct (H5 eq_refl) as [_ [_ [H6 _]]].
  split; [exact (proj1 (H1 eq_refl eq_refl))|].
  split; [exact (proj1 (H3 eq_refl))|].
  split; [exact (H4 eq_refl)|exact (H6 eq_refl)].
Defined.

(** The specification as stated fails on two inputs.  The quotient of the
    non-zero values 1e-200 and 1e200 underflows to 0.0, which is below 1.0,
    and the inverted factor [1.0 / ratio] raises [ZeroDivisionError] where
    the specification has a pair returned.  And for two infinite values,
    which the normalizer yields on numbers of some 310 digits, the quotient
    is not a number; it is neither above, below nor equal to 1.0, and the
    pair returned holds 1.0, not the quotient. *)
Lemma C4_comparator_counterexample :
  ((1e-200 =? 0)%float || (1e200 =? 0)%float = false /\
   (1e-200 / 1e200 <? 1)%float = true /\
   calculate_speedup 1e-200 1e200 = Raise ZeroDivisionError) /\
  ((infinity =? 0)%float || (infinity =? 0)%float = false /\
   (1 <? infinity / infinity)%float = false /\
   (infinity / infinity <? 1)%float = false /\
   (infinity / infinity =? 1)%float = false /\
   calculate_speedup infinity infinity = Ok (1%float, cp "Same")).
Proof. repeat split. Qed.

(** ** Output *)

Lemma acts_ret {A} (a : A) : acts (ret a) (Ok a) [].
Proof. intros [o e]. unfold ret. cbn. now rewrite app_nil_r. Qed.

Lemma acts_lift {A} (r : res A) : acts (lift r) r [].
Proof. intros [o e]. unfold lift. cbn. now rewrite app_nil_r. Qed.

Lemma acts_print (s : str) : acts (print s) (Ok tt) (s ++ newline).
Proof. intros w. reflexivity. Qed.

Lemma acts_bind_ok {A B} (m : io A) (k : A -> io B) a o1 r o2 :
  acts m (Ok a) o1 -> acts (k a) r o2 -> acts (iobind m k) r (o1 ++ o2).
Proof.
  intros H1 H2 w. unfold iobind. rewrite H1, H2. cbn.
  now rewrite app_assoc.
Qed.

Lemma acts_bind_raise {A B} (m : io A) (k : A -> io B) e o :
  acts m (Raise e) o -> acts (iobind m k) (Raise e) o.
Proof. intros H w. unfold iobind. now rewrite H. Qed.

Lemma regular_bind {A B} (m : io A) (k : A -> io B) :
  regular m -> (forall a, regular (k a)) -> regular (iobind m k).
Proof.
  intros [r [o H]] Hk. destruct r as [a|e].
  - destruct (Hk a) as [r' [o' H']]. exists r', (o ++ o').
    eapply acts_bind_ok; eassumption.
  - exists (Raise e), o. now apply acts_bind_raise.
Qed.

Lemma regular_for_each {A} (l : list A) (body : A -> io unit) :
  (forall x, regular (body x)) -> regular (for_each l body).
Proof.
  intros H. induction l as [|x l IH]; cbn [for_each].
  - exists (Ok tt), []. apply acts_ret.
  - apply regular_bind; [apply H|intros _; exact IH].
Qed.

Lemma succeeds_seq (m k : io unit) :
  succeeds m -> succeeds k -> succeeds (m ;;; k).
Proof.
  intros [o1 H1] [o2 H2]. exists (o1 ++ o2).
  eapply acts_bind_ok; eassumption.
Qed.

Lemma succeeds_print (s : str) : succeeds (print s).
Proof. eexists. apply acts_print. Qed.

Lemma succeeds_for_each {A} (l : list A) (body : A -> io unit) :
  (forall x, In x l -> succeeds (body x)) -> succeeds (for_each l body).
Proof.
  induction l as [|x l IH]; intros H; cbn [for_each].
  - exists []. apply acts_ret.
  - apply succeeds_seq; [apply H; now left|].
    apply IH. intros y Hy. apply H. now right.
Qed.

(** ** The report *)

Section Report.

Variable db : unicode_db.

Lemma report_parts (main_file current_file : str) (mr cr : dict record) :
  report db main_file current_file mr cr =
  (print (cp "# Branch Comparison Benchmark Report" ++ newline) ;;;
   print (cp "**Main Branch Results**: `" ++ main_file ++ cp "`") ;;;
   print (cp "**Current Branch Results**: `" ++ current_file ++ cp "`" ++ newline) ;;;
   report_rest db mr cr).
Proof. reflexivity. Qed.

Lemma report_acts (main_file current_file : str) (mr cr : dict record) r o :
  acts (report_rest db mr cr) r o ->
  acts (report db main_file current_file mr cr) r
       (header main_file current_file ++ o).
Proof.
  intros H. rewrite report_parts.
  assert (E : header main_file current_file ++ o =
              ((cp "# Branch Comparison Benchmark Report" ++ newline) ++ newline) ++
              ((cp "**Main Branch Results**: `" ++ main_file ++ cp "`") ++ newline) ++
              ((cp "**Current Branch Results**: `" ++ current_file ++ cp "`" ++ newline)
               ++ newline) ++ o).
  { unfold header. now rewrite <- !app_assoc. }
  rewrite E.
  eapply acts_bind_ok; [apply acts_print|].
  eapply acts_bind_ok; [apply acts_print|].
  eapply acts_bind_ok; [apply acts_print|exact H].
Qed.

Lemma regular_print_row (mr cr : dict record) (bench : str) :
  regular (print_row db mr cr bench).
Proof.
  unfold print_row. apply regular_bind.
  - eexists. eexists. apply acts_lift.
  - intros a. eexists. eexists. apply acts_print.
Qed.

Lemma regular_print_summary (c : counts) : regular (print_summary c).
Proof.
  unfold print_summary.
  repeat (apply regular_bind; [eexists; eexists; apply acts_print|intros _]).
  destruct (0 <? regressions c)%N; [eexists; eexists; apply acts_print|].
  destruct (0 <? improvements c)%N; [eexists; eexists; apply acts_print|].
  eexists. eexists. apply acts_ret.
Qed.

Lemma regular_report_rest (mr cr : dict record) :
  regular (report_rest db mr cr).
Proof.
  unfold report_rest. apply regular_bind.
  - apply regular_for_each. intros [category benches]. unfold print_category.
    cbn [fst snd]. destruct benches as [|b benches].
    + eexists. eexists. apply acts_ret.
    + repeat (apply regular_bind; [eexists; eexists; apply acts_print|intros _]).
      apply regular_bind.
      * apply regular_for_each. intros x. apply regular_print_row.
      * intros _. eexists. eexists. apply acts_print.
  - intros _. apply regular_bind; [eexists; eexists; apply acts_print|intros _].
    apply regular_bind; [eexists; eexists; apply acts_lift|].
    intros c. apply regular_print_summary.
Qed.

End Report.

(** ** Running the script *)

Section Runs.

Variable db : unicode_db.

Lemma run_usage (argv : list str) (fs : files) :
  length argv <> 3 ->
  run_script db argv fs =
    (Exited 1, {| stdout := []; stderr := usage ++ newline |}).
Proof.
  intros H. unfold run_script, main.
  destruct (Nat.eqb_spec (length argv) 3) as [E|_]; [contradiction|].
  reflexivity.
Qed.

Lemma run_report (argv : list str) (fs : files) (main_text current_text : str)
  (r : res unit) (o : str) :
  length argv = 3 ->
  fs (nth 1 argv []) = Some main_text ->
  fs (nth 2 argv []) = Some current_text ->
  acts (report_rest db (parse_criterion_text db main_text)
                       (parse_criterion_text db current_text)) r o ->
  run_script db argv fs =
    (ending_of r,
     {| stdout := header (nth 1 argv []) (nth 2 argv []) ++ o; stderr := [] |}).
Proof.
  intros L Hm Hc H. unfold run_script, main. rewrite L. cbn [Nat.eqb negb].
  unfold parse_criterion_output. rewrite Hm, Hc.
  unfold iobind at 1. cbn [lift]. unfold iobind at 1. cbn [lift].
  rewrite (report_acts db _ _ _ _ r o H). cbn [stdout stderr app].
  destruct r as [[]|[| | |status]]; reflexivity.
Qed.

(** X17: the report text after the header depends on the contents of the
    two files alone.  Two runs on files of the same contents, under any
    paths and in any file systems, end alike and print the same text after
    their three header lines, which alone show the paths. *)
Lemma run_depends_on_contents (argv1 argv2 : list str) (fs1 fs2 : files)
  (main_text current_text : str) :
  length argv1 = 3 -> length argv2 = 3 ->
  fs1 (nth 1 argv1 []) = Some main_text -> fs2 (nth 1 argv2 []) = Some main_text ->
  fs1 (nth 2 argv1 []) = Some current_text ->
  fs2 (nth 2 argv2 []) = Some current_text ->
  exists e body,
    run_script db argv1 fs1 =
      (e, {| stdout := header (nth 1 argv1 []) (nth 2 argv1 []) ++ body;
             stderr := [] |}) /\
    run_script db argv2 fs2 =
      (e, {| stdout := header (nth 1 argv2 []) (nth 2 argv2 []) ++ body;
             stderr := [] |}).
Proof.
  intros L1 L2 M1 M2 C1 C2.
  destruct (regular_report_rest db (parse_criterion_text db main_text)
              (parse_criterion_text db current_text)) as [r [o H]].
  exists (ending_of r), o. split; eapply run_report; eassumption.
Qed.

End Runs.

Lemma run_depends_on_contents_witness :
  exists e body,
    run_script ascii_db example_argv
      (example_files (cp "a time: [1ns 4ns 5ns]") (cp "a time: [1ns 2ns 3ns]")) =
      (e, {| stdout := header (cp "main_results.txt") (cp "current_results.txt") ++ body;
             stderr := [] |}) /\
    run_script ascii_db [cp "x"; cp "old.txt"; cp "new.txt"]
      (two_files (cp "old.txt") (cp "a time: [1ns 4ns 5ns]")
                 (cp "new.txt") (cp "a time: [1ns 2ns 3ns]")) =
      (e, {| stdout := header (cp "old.txt") (cp "new.txt") ++ body;
             stderr := [] |}).
Proof.
  apply (run_depends_on_contents ascii_db example_argv
           [cp "x"; cp "old.txt"; cp "new.txt"]
           (example_files (cp "a time: [1ns 4ns 5ns]") (cp "a time: [1ns 2ns 3ns]"))
           (two_files (cp "old.txt") (cp "a time: [1ns 4ns 5ns]")
                      (cp "new.txt") (cp "a time: [1ns 2ns 3ns]"))
           (cp "a time: [1ns 4ns 5ns]") (cp "a time: [1ns 2ns 3ns]"));
    reflexivity.
Defined.

(** C8: the program is deterministic.  Two invocations with the same two
    path arguments whose files have the same contents end alike and write
    the same text.  The list of names is the one ascending arrangement of
    the set of names, whatever the order in which the set yields them; the
    categories are taken in their fixed declaration order, and the rows of
    each category stand in the ascending order of the explicit sort of the
    names. *)
Theorem C8_deterministic_output
  (db : unicode_db) (argv1 argv2 : list str) (fs1 fs2 : files) :
  length argv1 = length argv2 ->
  nth 1 argv1 [] = nth 1 argv2 [] -> nth 2 argv1 [] = nth 2 argv2 [] ->
  fs1 (nth 1 argv1 []) = fs2 (nth 1 argv2 []) ->
  fs1 (nth 2 argv1 []) = fs2 (nth 2 argv2 []) ->
  run_script db argv1 fs1 = run_script db argv2 fs2 /\
  (forall (main_results current_results : dict record) (names : list str),
      (forall x, In x names <->
                 In x (keys main_results) \/ In x (keys current_results)) ->
      fold_right insert_sorted [] names =
        sorted_union (keys main_results) (keys current_results)) /\
  (forall main_results current_results : dict record,
      let categories :=
        categorize (sorted_union (keys main_results) (keys current_results)) in
      keys categories = category_tags /\
      forall category benches,
        In (category, benches) categories -> ascending benches).
Proof.
  intros L P1 P2 H1 H2. split; [|split].
  - unfold run_script, main, parse_criterion_output.
    rewrite L, H1, H2, P1, P2. reflexivity.
  - intros mr cr names E. unfold sorted_union. apply sorted_any_order.
    intros x. now rewrite E, in_app_iff.
  - intros mr cr categories. subst categories.
    split; [apply keys_categorize|].
    intros category benches H. apply bucket_of_entry in H.
    destruct H as [_ ->]. apply ascending_filter, sorted_union_ascending.
Qed.

Lemma C8_deterministic_output_witness :
  run_script ascii_db example_argv
    (example_files (cp "a/b/1 time: [1ns 2ns 3ns]") (cp "a/b/1 time: [2ns 3ns 4ns]")) =
  run_script ascii_db
    [cp "python3"; cp "main_results.txt"; cp "current_results.txt"]
    (fun path =>
       if str_eqb path (cp "current_results.txt")
       then Some (cp "a/b/1 time: [2ns 3ns 4ns]")
       else Some (cp "a/b/1 time: [1ns 2ns 3ns]")).
Proof.
  apply (C8_deterministic_output ascii_db); reflexivity.
Defined.

(** ** Runs that return *)

Section Returns.

Variable db : unicode_db.
Variables main_results current_results : dict record.

Let all_benchmarks : list str :=
  sorted_union (keys main_results) (keys current_results).

Hypothesis cells : cells_return db main_results current_results = true.

Lemma cell_returns (bench : str) :
  In bench all_benchmarks ->
  exists s, speedup_cell db (time_of main_results bench)
                            (time_of current_results bench) = Ok s.
Proof.
  intros H. unfold cells_return in cells. rewrite forallb_forall in cells.
  specialize (cells bench H).
  destruct (speedup_cell db _ _) as [s|e]; [now exists s|discriminate].
Qed.

Lemma count_one_returns (c : counts) (bench : str) :
  In bench all_benchmarks ->
  exists c', count_one db main_results current_results c bench = Ok c'.
Proof.
  intros H. destruct (cell_returns bench H) as [s E]. revert E.
  unfold speedup_cell, count_one.
  destruct (negb (str_eqb (time_of main_results bench) NA) &&
            negb (str_eqb (time_of current_results bench) NA));
    [|intros _; now eexists].
  destruct (parse_time_to_ns db (time_of main_results bench)) as [x|];
    [|discriminate].
  destruct (parse_time_to_ns db (time_of current_results bench)) as [y|];
    [|discriminate].
  cbn [bind]. destruct (calculate_speedup x y) as [rs|]; [|discriminate].
  cbn [bind]. intros _.
  destruct (1.1 <? fst rs)%float; [now eexists|].
  destruct (fst rs <? 0.9)%float; now eexists.
Qed.

Lemma count_all_returns (c : counts) (l : list str) :
  (forall bench, In bench l -> In bench all_benchmarks) ->
  exists c', count_all db main_results current_results c l = Ok c'.
Proof.
  revert c. induction l as [|bench l IH]; intros c H; cbn [count_all].
  - now eexists.
  - destruct (count_one_returns c bench) as [c1 ->]; [apply H; now left|].
    cbn [bind]. apply IH. intros b Hb. apply H. now right.
Qed.

Lemma print_row_succeeds (bench : str) :
  In bench all_benchmarks ->
  succeeds (print_row db main_results current_results bench).
Proof.
  intros H. destruct (cell_returns bench H) as [s E].
  unfold print_row. rewrite E. eexists.
  eapply acts_bind_ok; [apply acts_lift|apply acts_print].
Qed.

Lemma print_summary_succeeds (c : counts) : succeeds (print_summary c).
Proof.
  unfold print_summary.
  repeat (apply succeeds_seq; [apply succeeds_print|]).
  destruct (0 <? regressions c)%N; [apply succeeds_print|].
  destruct (0 <? improvements c)%N; [apply succeeds_print|].
  exists []. apply acts_ret.
Qed.

Lemma report_rest_succeeds :
  succeeds (report_rest db main_results current_results).
Proof.
  unfold report_rest. fold all_benchmarks. apply succeeds_seq.
  - apply succeeds_for_each. intros [category benches] H.
    apply bucket_of_entry in H. destruct H as [_ E].
    unfold print_category. cbn [fst snd].
    destruct benches as [|b benches]; [exists []; apply acts_ret|].
    repeat (apply succeeds_seq; [apply succeeds_print|]).
    apply succeeds_seq; [|apply succeeds_print].
    apply succeeds_for_each. intros x Hx. apply print_row_succeeds.
    rewrite E in Hx. now apply filter_In in Hx.
  - apply succeeds_seq; [apply succeeds_print|].
    destruct (count_all_returns
                {| improvements := 0%N; regressions := 0%N; similar := 0%N |}
                all_benchmarks) as [c E]; [auto|].
    rewrite E. destruct (print_summary_succeeds c) as [o H].
    exists ([] ++ o). eapply acts_bind_ok; [apply acts_lift|exact H].
Qed.

End Returns.

(** C7, as the code has it.  With an argument count other than two the
    program prints the usage line to the error stream, nothing to the
    standard output, and exits with status 1.  With exactly two arguments
    that name readable files it prints the report and exits with status 0
    whenever no speedup cell raises.  (Nothing in the program
    catches an exception: see [C9_parse_time_not_total] for the times on
    which the conversion raises.) *)
Theorem C7_exit_status
  (db : unicode_db) (argv : list str) (fs : files) (main_text current_text : str) :
  (length argv <> 3 ->
   run_script db argv fs =
     (Exited 1, {| stdout := []; stderr := usage ++ newline |})) /\
  (length argv = 3 ->
   fs (nth 1 argv []) = Some main_text ->
   fs (nth 2 argv []) = Some current_text ->
   cells_return db (parse_criterion_text db main_text)
                   (parse_criterion_text db current_text) = true ->
   exists body,
     run_script db argv fs =
       (Exited 0,
        {| stdout := header (nth 1 argv []) (nth 2 argv []) ++ body;
           stderr := [] |})).
Proof.
  split; [apply run_usage|].
  intros L Hm Hc Hcells.
  destruct (report_rest_succeeds db _ _ Hcells) as [body H].
  exists body. apply (run_report db argv fs main_text current_text (Ok tt) body);
    assumption.
Qed.

Lemma C7_exit_status_witness :
  run_script ascii_db [cp "analyze_benchmark_results.py"] (fun _ => None) =
    (Exited 1, {| stdout := []; stderr := usage ++ newline |}) /\
  run_script ascii_db
    [cp "analyze_benchmark_results.py"; cp "a"; cp "b"; cp "c"] (fun _ => None) =
    (Exited 1, {| stdout := []; stderr := usage ++ newline |}) /\
  exists body,
    run_script ascii_db example_argv
      (example_files (cp "foo/bar/10 time: [10ns 12ns 14ns]")
                     (cp "foo/bar/10 time: [5ns 6ns 7ns]")) =
    (Exited 0,
     {| stdout := header (cp "main_results.txt") (cp "current_results.txt") ++ body;
        stderr := [] |}).
Proof.
  split; [|split].
  - apply (C7_exit_status ascii_db [cp "analyze_benchmark_results.py"]
             (fun _ => None) [] []).
    simpl. lia.
  - apply (C7_exit_status ascii_db
             [cp "analyze_benchmark_results.py"; cp "a"; cp "b"; cp "c"]
             (fun _ => None) [] []).
    simpl. lia.
  - apply (C7_exit_status ascii_db example_argv
             (example_files (cp "foo/bar/10 time: [10ns 12ns 14ns]")
                            (cp "foo/bar/10 time: [5ns 6ns 7ns]"))
             (cp "foo/bar/10 time: [10ns 12ns 14ns]")
             (cp "foo/bar/10 time: [5ns 6ns 7ns]"));
      reflexivity.
Defined.

(** The specification as stated fails: with two readable files in which a
    median token is [1.2.3ns], the conversion raises [ValueError] after the
    header and the table head have been printed, and the status is 1. *)
Lemma C7_exit_status_counterexample :
  length example_argv = 3 /\
  example_files (cp "a/b/1 time: [1ns 1.2.3ns 2ns]")
                (cp "a/b/1 time: [1ns 1.2.3ns 2ns]") (nth 1 example_argv []) =
    Some (cp "a/b/1 time: [1ns 1.2.3ns 2ns]") /\
  example_files (cp "a/b/1 time: [1ns 1.2.3ns 2ns]")
                (cp "a/b/1 time: [1ns 1.2.3ns 2ns]") (nth 2 example_argv []) =
    Some (cp "a/b/1 time: [1ns 1.2.3ns 2ns]") /\
  (forall db,
      run_script db example_argv
        (example_files (cp "a/b/1 time: [1ns 1.2.3ns 2ns]")
                       (cp "a/b/1 time: [1ns 1.2.3ns 2ns]")) =
      (Uncaught ValueError,
       {| stdout := lines (example_header ++ [cp "## Other"; []] ++ table_head);
          stderr := [] |})) /\
  exit_status (Uncaught ValueError) = 1%Z.
Proof.
  split; [reflexivity|]. split; [reflexivity|]. split; [reflexivity|].
  split; [|reflexivity]. intros db. vm_compute. reflexivity.
Qed.

(** ** The report on concrete files *)

(** C1: the run on the two files of the specification's end-to-end example,
    as the code performs it.  The
    bracketed text [10 ns 12 ns 14 ns] splits into six tokens and the second
    one, [ns], is stored as the time on both sides; [ns] normalizes to 0.0,
    the comparator answers [(0.0, "N/A")], and the ratio 0.0 is below 0.9:
    the row shows [ns], [ns] and the regression marker with [N/A], the
    summary counts 0 improvements, 1 regression and 0 similar, and the
    warning follows.  The specification has 12 ns, 6 ns, a "faster" label, 1
    improvement and the success message. *)
Theorem C1_end_to_end_report (db : unicode_db) :
  parse_criterion_text db (cp "foo/bar/10 time: [10 ns 12 ns 14 ns]") =
    [(cp "foo/bar/10",
      {| time := cp "ns"; full_time := cp "10 ns 12 ns 14 ns" |})] /\
  parse_criterion_text db (cp "foo/bar/10 time: [5 ns 6 ns 7 ns]") =
    [(cp "foo/bar/10",
      {| time := cp "ns"; full_time := cp "5 ns 6 ns 7 ns" |})] /\
  run_script db example_argv
    (example_files (cp "foo/bar/10 time: [10 ns 12 ns 14 ns]")
                   (cp "foo/bar/10 time: [5 ns 6 ns 7 ns]")) =
  (Exited 0,
   {| stdout :=
        lines (example_header ++ [cp "## Other"; []] ++ table_head ++
               [cp "| `foo/bar/10` | ns | ns | " ++ mark_regressed ++ cp " N/A |";
                []] ++
               summary_lines (cp "1") (cp "0") (cp "1") (cp "0") ++
               [[]; mark_warning ++
                    cp " **WARNING**: Performance regressions detected!"]);
      stderr := [] |}).
Proof. repeat split; vm_compute; reflexivity. Qed.

(** With the unit written against the number the same two measurements
    give the row and the summary that the specification describes. *)
Lemma end_to_end_attached_units (db : unicode_db) :
  run_script db example_argv
    (example_files (cp "foo/bar/10 time: [10ns 12ns 14ns]")
                   (cp "foo/bar/10 time: [5ns 6ns 7ns]")) =
  (Exited 0,
   {| stdout :=
        lines (example_header ++ [cp "## Other"; []] ++ table_head ++
               [cp "| `foo/bar/10` | 12ns | 6ns | " ++ mark_improved ++
                cp " 2.00" ++ times_sign ++ cp " faster |";
                []] ++
               summary_lines (cp "1") (cp "1") (cp "0") (cp "0") ++
               [[]; mark_success ++
                    cp " **Success**: Performance improvements detected!"]);
      stderr := [] |}).
Proof. vm_compute. reflexivity. Qed.

(** A time that normalizes to 0.0 on either side makes the cell the
    regression marker with [N/A] and adds one to the regressions. *)
Lemma zero_time_cell (db : unicode_db) (mr cr : dict record) (c : counts)
  (bench : str) (x y : float) :
  str_eqb (time_of mr bench) NA = false ->
  str_eqb (time_of cr bench) NA = false ->
  parse_time_to_ns db (time_of mr bench) = Ok x ->
  parse_time_to_ns db (time_of cr bench) = Ok y ->
  (x =? 0)%float || (y =? 0)%float = true ->
  speedup_cell db (time_of mr bench) (time_of cr bench) =
    Ok (mark_regressed ++ cp " N/A") /\
  count_one db mr cr c bench =
    Ok {| improvements := improvements c;
          regressions := regressions c + 1;
          similar := similar c |}.
Proof.
  intros Hm Hc Ex Ey Hz. unfold speedup_cell, count_one.
  rewrite Hm, Hc, Ex, Ey. cbn [negb andb bind].
  unfold calculate_speedup. rewrite Hz. cbn [bind fst snd]. now split.
Qed.

(** C6: what the code does with a time of 0.0.  A string that does not
    begin with a digit or a point, and the string [0ns], normalize to 0.0.  With the
    time [0ns] for [foo] in the main file, the row carries the regression
    marker before [N/A], the summary counts one regression out of one
    benchmark and the warning is printed.  With [foo] absent from the main
    file, the cell is a bare [N/A], nothing is counted and no message
    follows: the two cases are not treated alike, as the specification has
    it. *)
Theorem C6_zero_time_counted_as_regression (db : unicode_db) :
  (forall s : str,
      starts (digit_or_dot db) s = false -> parse_time_to_ns db s = Ok 0%float) /\
  parse_time_to_ns db (cp "x") = Ok 0%float /\
  parse_time_to_ns db (cp "0ns") = Ok 0%float /\
  run_script db example_argv
    (example_files (cp "foo time: [1ns 0ns 3ns]") (cp "foo time: [1ns 2ns 3ns]")) =
  (Exited 0,
   {| stdout :=
        lines (example_header ++ [cp "## Other"; []] ++ table_head ++
               [cp "| `foo` | 0ns | 2ns | " ++ mark_regressed ++ cp " N/A |"; []] ++
               summary_lines (cp "1") (cp "0") (cp "1") (cp "0") ++
               [[]; mark_warning ++
                    cp " **WARNING**: Performance regressions detected!"]);
      stderr := [] |}) /\
  run_script db example_argv
    (example_files [] (cp "foo time: [1ns 2ns 3ns]")) =
  (Exited 0,
   {| stdout :=
        lines (example_header ++ [cp "## Other"; []] ++ table_head ++
               [cp "| `foo` | N/A | 2ns | N/A |"; []] ++
               summary_lines (cp "0") (cp "0") (cp "0") (cp "0"));
      stderr := [] |}).
Proof.
  split; [apply parse_time_no_number|].
  repeat split; vm_compute; reflexivity.
Qed.

(** * Further properties of the code *)

(** ** Matches of the two patterns *)

Lemma In_run_Star p s g s' g' :
  In (s', g') (run (Star p) s g) <->
  g' = g /\ exists w, forallb p w = true /\ s = w ++ s'.
Proof.
  cbn [run]. rewrite in_map_iff. split.
  - intros [x [E H]]. inversion E; subst. split; [reflexivity|].
    apply in_app_iff in H. destruct H as [H|[<-|[]]].
    + apply splits_In in H. destruct H as [w [_ [Pw Ew]]]. now exists w.
    + now exists [].
  - intros [-> [w [Pw E]]]. exists s'. split; [reflexivity|].
    apply in_app_iff. destruct w as [|c w].
    + right. simpl in E. subst. now left.
    + left. apply splits_In. exists (c :: w). repeat split; [discriminate|assumption..].
Qed.

Lemma hd_error_In {A} (l : list A) (x : A) : hd_error l = Some x -> In x l.
Proof. destruct l; [discriminate|]. intros E. inversion E. now left. Qed.

Lemma token_intro (s : str) :
  s <> [] -> forallb non_space s = true -> token s = true.
Proof. destruct s; [congruence|]. now intros _ H. Qed.

Section Matches.

Variable db : unicode_db.

(** What group 1 takes is a token. *)
Lemma name_re_token s g s' g' :
  In (s', g') (run (name_re db) s g) ->
  g' = g /\ exists w, token w = true /\ s = w ++ s'.
Proof.
  unfold name_re. rewrite In_run_Alt. intros [H|H].
  - apply In_run_Cat in H. destruct H as [s1 [g1 [H1 H]]].
    apply In_run_Cat in H. destruct H as [s2 [g2 [H2 H]]].
    apply In_run_Cat in H. destruct H as [s3 [g3 [H3 H]]].
    apply In_run_Cat in H. destruct H as [s4 [g4 [H4 H5]]].
    apply In_run_Plus in H1. destruct H1 as [-> [w1 [N1 [P1 ->]]]].
    apply In_run_Chr in H2. destruct H2 as [-> [c2 [P2 ->]]].
    apply In_run_Plus in H3. destruct H3 as [-> [w3 [N3 [P3 ->]]]].
    apply In_run_Chr in H4. destruct H4 as [-> [c4 [P4 ->]]].
    apply In_run_Plus in H5. destruct H5 as [-> [w5 [N5 [P5 ->]]]].
    apply N.eqb_eq in P2, P4. subst c2 c4.
    split; [reflexivity|].
    exists (w1 ++ 47%N :: w3 ++ 47%N :: w5). split.
    + apply token_intro; [destruct w1; [congruence|discriminate]|].
      apply forallb_digit_not_space in P5.
      rewrite forallb_app. cbn [forallb]. rewrite forallb_app. cbn [forallb].
      now rewrite P1, P3, P5.
    + rewrite <- !app_assoc. cbn [app]. rewrite <- !app_assoc. reflexivity.
  - apply In_run_Plus in H. destruct H as [-> [w [N1 [P1 ->]]]].
    split; [reflexivity|]. exists w. split; [|reflexivity].
    apply token_intro; [exact N1|]. rewrite forallb_forall in *.
    intros c Hc. unfold non_space. now rewrite (word_not_space db) by auto.
Qed.

(** Every match of the rest of the pattern: blanks, [time:], blanks, and
    a bracketed text that is not empty and holds no closing bracket. *)
Lemma line_tail_inv s g s' g' :
  In (s', g') (run line_tail_re s g) ->
  exists b1 b2 inner,
    s = b1 ++ cp "time:" ++ b2 ++ 91%N :: inner ++ 93%N :: s' /\
    forallb is_space b1 = true /\ forallb is_space b2 = true /\
    inner <> [] /\ forallb not_closing inner = true /\
    g' = (2, inner) :: g.
Proof.
  unfold line_tail_re. intros H.
  apply In_run_Cat in H. destruct H as [s1 [g1 [H1 H]]].
  apply In_run_Cat in H. destruct H as [s2 [g2 [H2 H]]].
  apply In_run_Cat in H. destruct H as [s3 [g3 [H3 H]]].
  apply In_run_Cat in H. destruct H as [s4 [g4 [H4 H]]].
  apply In_run_Cat in H. destruct H as [s5 [g5 [H5 H6]]].
  apply In_run_Plus in H1. destruct H1 as [-> [b1 [_ [P1 ->]]]].
  apply In_run_lit in H2. destruct H2 as [-> ->].
  apply In_run_Plus in H3. destruct H3 as [-> [b2 [_ [P2 ->]]]].
  apply In_run_Chr in H4. destruct H4 as [-> [c4 [P4 ->]]].
  apply N.eqb_eq in P4. subst c4.
  apply In_run_Grp in H5. destruct H5 as [g0 [H5 ->]].
  apply In_run_Plus in H5. destruct H5 as [-> [inner [Ni [Pi ->]]]].
  apply In_run_Chr in H6. destruct H6 as [-> [c6 [P6 ->]]].
  apply N.eqb_eq in P6. subst c6.
  exists b1, b2, inner. rewrite firstn_consumed. now repeat split.
Qed.

(** Every match of the benchmark pattern. *)
Lemma bench_re_inv (s rest : str) (g : caps) :
  re_match (bench_re db) s = Some (rest, g) ->
  exists name b1 b2 inner,
    s = name ++ b1 ++ cp "time:" ++ b2 ++ 91%N :: inner ++ 93%N :: rest /\
    token name = true /\
    forallb is_space b1 = true /\ forallb is_space b2 = true /\
    inner <> [] /\ forallb not_closing inner = true /\
    g = [(2, inner); (1, name)].
Proof.
  unfold re_match. rewrite bench_re_parts. intros H. apply hd_error_In in H.
  apply In_run_Cat in H. destruct H as [s1 [g1 [H1 H2]]].
  apply In_run_Grp in H1. destruct H1 as [g0 [H1 ->]].
  apply name_re_token in H1. destruct H1 as [-> [name [Tn ->]]].
  apply line_tail_inv in H2.
  destruct H2 as [b1 [b2 [inner [-> [P1 [P2 [Ni [Pi ->]]]]]]]].
  exists name, b1, b2, inner. rewrite firstn_consumed. now repeat split.
Qed.

(** Every match of the time pattern: a number of digits and points,
    blanks, and a unit without blanks. *)
Lemma time_re_inv (s rest : str) (g : caps) :
  re_match (time_re db) s = Some (rest, g) ->
  exists num blanks unit,
    s = num ++ blanks ++ unit ++ rest /\
    num <> [] /\ forallb (digit_or_dot db) num = true /\
    forallb is_space blanks = true /\
    unit <> [] /\ forallb non_space unit = true /\
    g = [(2, unit); (1, num)].
Proof.
  unfold re_match, time_re. intros H. apply hd_error_In in H.
  apply In_run_Cat in H. destruct H as [s1 [g1 [H1 H]]].
  apply In_run_Cat in H. destruct H as [s2 [g2 [H2 H3]]].
  apply In_run_Grp in H1. destruct H1 as [g0 [H1 ->]].
  apply In_run_Plus in H1. destruct H1 as [-> [num [Nn [Pn ->]]]].
  apply In_run_Star in H2. destruct H2 as [-> [blanks [Pb ->]]].
  apply In_run_Grp in H3. destruct H3 as [g3 [H3 ->]].
  apply In_run_Plus in H3. destruct H3 as [-> [unit [Nu [Pu ->]]]].
  exists num, blanks, unit. rewrite !firstn_consumed. now repeat split.
Qed.

End Matches.

(** What [finditer] returns are matches at places of the text. *)
Lemma finditer_from_In (r : regex) (s : str) (k : nat) (g : caps) :
  In g (finditer_from r s k) ->
  exists pre t rest, s = pre ++ t /\ re_match r t = Some (rest, g).
Proof.
  revert k. induction s as [|c s IH]; intros k H; [destruct H|].
  cbn [finditer_from] in H.
  assert (Htail : forall k', In g (finditer_from r s k') ->
            exists pre t rest, c :: s = pre ++ t /\ re_match r t = Some (rest, g)).
  { intros k' H'. destruct (IH k' H') as [pre [t [rest [E M]]]].
    exists (c :: pre), t, rest. split; [now rewrite E|exact M]. }
  destruct k as [|k]; [|now apply (Htail k)].
  destruct (re_match r (c :: s)) as [[rest g0]|] eqn:M; [|now apply (Htail 0)].
  destruct H as [<-|H]; [|now apply (Htail _ H)].
  now exists [], (c :: s), rest.
Qed.

(** ** Dictionaries and tokens *)

Lemma dict_set_In {V} (d : dict V) (k k' : str) (v v' : V) :
  In (k', v') (dict_set d k v) -> (k', v') = (k, v) \/ In (k', v') d.
Proof.
  induction d as [|[k0 v0] d IH]; cbn [dict_set].
  - intros [E|[]]. left. now symmetry.
  - destruct (str_eqb k0 k) eqn:E.
    + apply str_eqb_eq in E. subst k0. intros [H|H].
      * left. now symmetry.
      * right. now right.
    + intros [H|H]; [right; now left|].
      destruct (IH H) as [H'|H']; [now left|right; now right].
Qed.

Lemma dict_set_keys_In {V} (d : dict V) (k k' : str) (v : V) :
  In k' (keys (dict_set d k v)) -> k' = k \/ In k' (keys d).
Proof.
  unfold keys. intros H. apply in_map_iff in H. destruct H as [[k1 v1] [<- H]].
  apply dict_set_In in H. destruct H as [H|H].
  - inversion H. now left.
  - right. apply in_map_iff. now exists (k1, v1).
Qed.

(** Assigning to a key keeps the keys distinct. *)
Lemma dict_set_NoDup {V} (d : dict V) (k : str) (v : V) :
  NoDup (keys d) -> NoDup (keys (dict_set d k v)).
Proof.
  induction d as [|[k0 v0] d IH]; cbn [dict_set keys map fst].
  - intros _. constructor; [intros []|constructor].
  - intros H. inversion H as [|? ? Hnotin Hd]; subst.
    destruct (str_eqb k0 k) eqn:E; cbn [map fst]; [now constructor|].
    apply str_eqb_neq in E. constructor; [|now apply IH].
    intros Hin. apply dict_set_keys_In in Hin. destruct Hin; [congruence|].
    now apply Hnotin.
Qed.

Lemma split_from_tokens (w s : str) :
  forallb non_space w = true ->
  Forall (fun t => token t = true) (split_from w s).
Proof.
  assert (Hrev : forall w, w <> [] -> forallb non_space w = true ->
                           token (rev w) = true).
  { intros u Nu Pu. apply token_intro.
    - intros E. apply (f_equal (@rev char)) in E.
      rewrite rev_involutive in E. now apply Nu.
    - rewrite forallb_forall in *. intros c Hc. apply Pu. now apply in_rev. }
  revert w. induction s as [|c s IH]; intros w Pw; cbn [split_from].
  - destruct w as [|a w]; constructor; [|constructor].
    apply Hrev; [discriminate|exact Pw].
  - destruct (is_space c) eqn:Ec.
    + destruct w as [|a w]; [now apply IH|].
      constructor; [apply Hrev; [discriminate|exact Pw]|now apply IH].
    + apply IH. cbn [forallb]. unfold non_space at 1. now rewrite Ec, Pw.
Qed.

(** The pieces [split] returns are tokens. *)
Lemma py_split_tokens (s : str) : Forall (fun t => token t = true) (py_split s).
Proof. now apply split_from_tokens. Qed.

Lemma second_token (s : str) :
  2 <= length (py_split s) -> token (nth 1 (py_split s) []) = true.
Proof.
  intros H. pose proof (py_split_tokens s) as F. rewrite Forall_forall in F.
  apply F, nth_In. lia.
Qed.

Lemma starts_with_app (t b : str) : starts_with t (t ++ b) = true.
Proof.
  induction t as [|c t IH]; [reflexivity|].
  cbn [app starts_with]. now rewrite N.eqb_refl, IH.
Qed.

Lemma is_substring_mid (t a b : str) : is_substring t (a ++ t ++ b) = true.
Proof.
  apply is_substring_app_r.
  destruct (t ++ b) eqn:E; cbn [is_substring]; rewrite <- E, starts_with_app;
    reflexivity.
Qed.

(** ** What the parser stores *)

Section Parser.

Variable db : unicode_db.

(** An entry of the mapping comes from a match. *)
Lemma fold_add_match_In (ms : list caps) (d : dict record) (k : str) (v : record) :
  In (k, v) (fold_left add_match ms d) ->
  In (k, v) d \/
  exists g, In g ms /\ k = group g 1 /\ v = record_of (group g 2) /\
            2 <= length (py_split (group g 2)).
Proof.
  revert d. induction ms as [|m ms IH]; intros d H; [now left|].
  cbn [fold_left] in H. apply IH in H. destruct H as [H|[g [Hg R]]].
  - unfold add_match in H.
    destruct (Nat.leb_spec 2 (length (py_split (group m 2)))) as [L|_];
      [|now left].
    apply dict_set_In in H. destruct H as [H|H]; [|now left].
    inversion H; subst. right. exists m. repeat split; [now left|exact L].
  - right. exists g. split; [now right|exact R].
Qed.

Lemma fold_add_match_NoDup (ms : list caps) (d : dict record) :
  NoDup (keys d) -> NoDup (keys (fold_left add_match ms d)).
Proof.
  revert d. induction ms as [|m ms IH]; intros d H; [exact H|].
  cbn [fold_left]. apply IH. unfold add_match.
  destruct (2 <=? length (py_split (group m 2))); [|exact H].
  now apply dict_set_NoDup.
Qed.

(** Every entry of a parsed mapping comes from a place of the text where
    the name, blanks, [time:], blanks and the bracketed text stand. *)
Lemma parse_entry_origin (content : str) (k : str) (v : record) :
  In (k, v) (parse_criterion_text db content) ->
  exists pre b1 b2 rest,
    content = pre ++ (k ++ b1 ++ cp "time:" ++ b2 ++
                      91%N :: full_time v ++ [93%N]) ++ rest /\
    token k = true /\
    forallb is_space b1 = true /\ forallb is_space b2 = true /\
    full_time v <> [] /\ forallb not_closing (full_time v) = true /\
    v = record_of (full_time v) /\
    2 <= length (py_split (full_time v)).
Proof.
  intros H. unfold parse_criterion_text in H. apply fold_add_match_In in H.
  destruct H as [[]|[g [Hg [-> [-> L]]]]].
  apply finditer_from_In in Hg. destruct Hg as [pre [t [rest [-> M]]]].
  apply bench_re_inv in M.
  destruct M as [name [b1 [b2 [inner [-> [Tn [P1 [P2 [Ni [Pi ->]]]]]]]]]].
  cbn [group Nat.eqb] in *. cbn [record_of full_time].
  exists pre, b1, b2, rest. repeat split; try assumption.
  f_equal. rewrite <- !app_assoc. cbn [app]. rewrite <- !app_assoc.
  reflexivity.
Qed.

End Parser.

(** X1: every entry the parser stores is well formed, whatever the text:
    its key is a non-empty blank-free string, its bracketed text has at
    least two tokens and no closing bracket, and its time is the second of
    those tokens, itself non-empty and blank-free. *)
Theorem parser_entries_well_formed (db : unicode_db) (content : str) :
  forallb entry_ok (parse_criterion_text db content) = true.
Proof.
  apply forallb_forall. intros [k v] H. apply parse_entry_origin in H.
  destruct H as [pre [b1 [b2 [rest [_ [Tk [_ [_ [_ [Pi [E L]]]]]]]]]]].
  unfold entry_ok. cbn [fst snd]. rewrite Tk, Pi.
  destruct (Nat.leb_spec 2 (length (py_split (full_time v)))) as [_|C]; [|lia].
  destruct v as [t f]. cbn [time full_time record_of] in *.
  injection E as ->.
  now rewrite str_eqb_refl, second_token.
Qed.

(** X2: the parser never stores a name twice, whatever the text: the keys
    of the mapping are pairwise distinct. *)
Theorem parser_keys_distinct (db : unicode_db) (content : str) :
  NoDup (keys (parse_criterion_text db content)).
Proof.
  unfold parse_criterion_text. apply fold_add_match_NoDup. constructor.
Qed.

(** X3: the parser invents nothing.  For every entry, the text holds the
    key followed by blanks, [time:], blanks and the bracketed [full_time],
    so the key and the bracketed text both occur in the file. *)
Theorem parser_entries_occur (db : unicode_db) (content : str)
  (k : str) (v : record) :
  In (k, v) (parse_criterion_text db content) ->
  (exists b1 b2,
      forallb is_space b1 = true /\ forallb is_space b2 = true /\
      is_substring (k ++ b1 ++ cp "time:" ++ b2 ++ 91%N :: full_time v ++ [93%N])
                   content = true) /\
  is_substring k content = true /\
  is_substring (91%N :: full_time v ++ [93%N]) content = true.
Proof.
  intros H. apply parse_entry_origin in H.
  destruct H as [pre [b1 [b2 [rest [-> [_ [P1 [P2 _]]]]]]]].
  split; [|split].
  - exists b1, b2. repeat split; try assumption. apply is_substring_mid.
  - rewrite <- (app_assoc k). apply is_substring_mid.
  - replace (pre ++ (k ++ b1 ++ cp "time:" ++ b2 ++
                     91%N :: full_time v ++ [93%N]) ++ rest)
      with ((pre ++ k ++ b1 ++ cp "time:" ++ b2) ++
            (91%N :: full_time v ++ [93%N]) ++ rest).
    + apply is_substring_mid.
    + rewrite <- !app_assoc. cbn [app]. rewrite <- !app_assoc. reflexivity.
Qed.

Lemma parser_entries_occur_witness :
  In (cp "x/y/1", record_of (cp "1ns 2ns 3ns"))
     (parse_criterion_text ascii_db (cp "## x/y/1   time: [1ns 2ns 3ns] ok")) /\
  is_substring (cp "x/y/1") (cp "## x/y/1   time: [1ns 2ns 3ns] ok") = true /\
  is_substring (cp "[1ns 2ns 3ns]") (cp "## x/y/1   time: [1ns 2ns 3ns] ok") = true.
Proof.
  assert (H : In (cp "x/y/1", record_of (cp "1ns 2ns 3ns"))
                 (parse_criterion_text ascii_db
                    (cp "## x/y/1   time: [1ns 2ns 3ns] ok")))
    by (vm_compute; now left).
  split; [exact H|].
  destruct (parser_entries_occur ascii_db _ _ _ H) as [_ [H1 H2]].
  split; [exact H1|exact H2].
Defined.

(** ** Texts in which the parser finds nothing, and files of lines *)

Section Files.

Variable db : unicode_db.

(** The pattern does not match at a blank. *)
Lemma bench_re_blank_start (s : str) :
  starts is_space s = true -> re_match (bench_re db) s = None.
Proof.
  intros H. destruct (re_match (bench_re db) s) as [[rest g]|] eqn:M;
    [|reflexivity].
  apply bench_re_inv in M.
  destruct M as [name [b1 [b2 [inner [-> [Tn _]]]]]].
  apply token_inv in Tn. destruct Tn as [Nn Pn].
  destruct name as [|c name]; [congruence|].
  cbn [app starts] in H. cbn [forallb] in Pn.
  apply andb_true_iff in Pn. destruct Pn as [Pc _].
  unfold non_space in Pc. rewrite H in Pc. discriminate.
Qed.

Lemma well_formed_line_inv (l : bench_name * str) :
  well_formed_line db l = true ->
  well_formed_name db (fst l) = true /\ snd l <> [] /\
  forallb not_closing (snd l) = true.
Proof.
  unfold well_formed_line. intros H. apply andb_true_iff in H.
  destruct H as [H1 H2]. apply nonempty_inv in H2. tauto.
Qed.

(** In a file of well-formed lines the pattern finds one match per line, in
    the order of the lines, with the name and the bracketed text as its
    groups. *)
Lemma finditer_lines (ls : list (bench_name * str)) :
  forallb (well_formed_line db) ls = true ->
  finditer (bench_re db) (lines (map text_of_line ls)) =
  map (fun l => [(2, snd l); (1, name_text (fst l))]) ls.
Proof.
  induction ls as [|l ls IH]; intros H; [reflexivity|].
  cbn [forallb] in H. apply andb_true_iff in H. destruct H as [Hl H].
  apply well_formed_line_inv in Hl. destruct Hl as [Hn [Ni Pi]].
  unfold lines in *. cbn [map concat].
  set (R := concat (map (fun s => s ++ newline) (map text_of_line ls))) in *.
  pose proof (bench_re_line db (fst l) (snd l) (newline ++ R) Hn Ni Pi) as M.
  assert (E : name_text (fst l) ++ cp " time: [" ++ snd l ++ cp "]" ++ newline ++ R =
              text_of_line l ++ newline ++ R).
  { unfold text_of_line, line_text. now rewrite <- !app_assoc. }
  rewrite E in M. rewrite <- app_assoc.
  assert (Nw : text_of_line l <> []).
  { unfold text_of_line, line_text. intros Z. apply app_eq_nil in Z.
    destruct Z as [_ Z]. discriminate Z. }
  rewrite (finditer_first _ _ _ _ Nw M).
  cbn [map]. f_equal.
  unfold finditer, newline. cbn [app finditer_from].
  rewrite bench_re_blank_start by reflexivity.
  apply IH, H.
Qed.

Lemma time_of_dict_set (d : dict record) (k k' : str) (v : record) :
  time_of (dict_set d k v) k' =
  if str_eqb k k' then time v else time_of d k'.
Proof.
  unfold time_of. induction d as [|[k0 v0] d IH]; cbn [dict_set find fst snd].
  - now destruct (str_eqb k k').
  - destruct (str_eqb k0 k) eqn:E; cbn [find fst snd].
    + apply str_eqb_eq in E. subst k0. now destruct (str_eqb k k').
    + destruct (str_eqb k0 k') eqn:E'; [|exact IH].
      apply str_eqb_eq in E'. subst k0. now rewrite str_eqb_sym, E.
Qed.

End Files.

(** X4: a text without the word [time:], or without a closing bracket,
    gives the empty mapping; the empty file is such a text. *)
Theorem parser_finds_nothing (db : unicode_db) (content : str) :
  is_substring (cp "time:") content = false \/
  forallb not_closing content = true ->
  parse_criterion_text db content = [].
Proof.
  intros H. unfold parse_criterion_text.
  destruct (finditer (bench_re db) content) as [|g l] eqn:E; [reflexivity|].
  exfalso.
  assert (Hg : In g (finditer (bench_re db) content)) by (rewrite E; now left).
  apply finditer_from_In in Hg. destruct Hg as [pre [t [rest [-> M]]]].
  apply bench_re_inv in M.
  destruct M as [name [b1 [b2 [inner [-> _]]]]].
  destruct H as [H|H].
  - assert (T : is_substring (cp "time:")
                  ((pre ++ name ++ b1) ++ cp "time:" ++
                   b2 ++ 91%N :: inner ++ 93%N :: rest) = true)
      by apply is_substring_mid.
    rewrite <- !app_assoc in T. rewrite T in H. discriminate.
  - rewrite forallb_forall in H. specialize (H 93%N).
    assert (F : not_closing 93%N = true); [|discriminate F].
    apply H. apply in_or_app. right. apply in_or_app. right.
    apply in_or_app. right. apply in_or_app. right.
    apply in_or_app. right. right. apply in_or_app. right. now left.
Qed.

Lemma parser_finds_nothing_witness :
  parse_criterion_text ascii_db (cp "foo/bar/10 took [10 ns 12 ns 14 ns]") = [] /\
  parse_criterion_text ascii_db (cp "foo/bar/10 time: [10 ns 12 ns 14 ns") = [] /\
  parse_criterion_text ascii_db [] = [].
Proof.
  split; [|split].
  - apply (parser_finds_nothing ascii_db). left. reflexivity.
  - apply (parser_finds_nothing ascii_db). right. reflexivity.
  - apply (parser_finds_nothing ascii_db). left. reflexivity.
Defined.

(** X5: a file of well-formed lines [<name> time: [<text>]], one per line,
    is read line by line: the mapping is what results from taking the lines
    in order and, for each line whose bracketed text has at least two
    tokens, assigning its record to its name.  So the keys stand in the
    order of their first line, and a name that comes again keeps its place
    and takes the later record. *)
Theorem parser_reads_lines (db : unicode_db) (ls : list (bench_name * str)) :
  forallb (well_formed_line db) ls = true ->
  parse_criterion_text db (lines (map text_of_line ls)) =
  fold_left add_line ls [].
Proof.
  intros H. unfold parse_criterion_text. rewrite finditer_lines by exact H.
  generalize (@nil (str * record)).
  induction ls as [|l ls IH]; intros d; [reflexivity|].
  cbn [forallb] in H. apply andb_true_iff in H. destruct H as [_ H].
  cbn [map fold_left]. rewrite IH by exact H. reflexivity.
Qed.

Lemma parser_reads_lines_witness :
  parse_criterion_text ascii_db
    (cp "a/b/1 time: [1ns 2ns 3ns]" ++ newline ++
     cp "other time: [4ns 5ns 6ns]" ++ newline ++
     cp "a/b/1 time: [7ns 8ns 9ns]" ++ newline) =
  [(cp "a/b/1", {| time := cp "8ns"; full_time := cp "7ns 8ns 9ns" |});
   (cp "other", {| time := cp "5ns"; full_time := cp "4ns 5ns 6ns" |})].
Proof.
  apply (parser_reads_lines ascii_db
           [(Path (cp "a") (cp "b") (cp "1"), cp "1ns 2ns 3ns");
            (Ident (cp "other"), cp "4ns 5ns 6ns");
            (Path (cp "a") (cp "b") (cp "1"), cp "7ns 8ns 9ns")]).
  reflexivity.
Defined.

(** X6: the time the report shows for a name, after parsing a file of
    well-formed lines, is the second token of the last line of that name
    whose bracketed text has at least two tokens, and [N/A] when there is
    no such line. *)
Theorem report_time_is_last_line
  (db : unicode_db) (ls : list (bench_name * str)) (k : str) :
  forallb (well_formed_line db) ls = true ->
  time_of (parse_criterion_text db (lines (map text_of_line ls))) k =
  match find (times_for k) (rev ls) with
  | Some l => nth 1 (py_split (snd l)) []
  | None => NA
  end.
Proof.
  intros H. unfold parse_criterion_text. rewrite finditer_lines by exact H.
  clear H. induction ls as [|l ls IH] using rev_ind; [reflexivity|].
  rewrite map_app, fold_left_app, rev_app_distr. cbn [map fold_left rev app find].
  unfold add_match at 1. cbn [group Nat.eqb]. unfold times_for at 1.
  destruct (2 <=? length (py_split (snd l))).
  - rewrite time_of_dict_set. cbn [time].
    destruct (str_eqb (name_text (fst l)) k); [reflexivity|exact IH].
  - rewrite andb_false_r. exact IH.
Qed.

Lemma report_time_is_last_line_witness :
  time_of
    (parse_criterion_text ascii_db
       (cp "run time: [1ns 2ns 3ns]" ++ newline ++
        cp "run time: [7ns 8ns 9ns]" ++ newline ++
        cp "run time: [5ns]" ++ newline))
    (cp "run") = cp "8ns".
Proof.
  apply (report_time_is_last_line ascii_db
           [(Ident (cp "run"), cp "1ns 2ns 3ns");
            (Ident (cp "run"), cp "7ns 8ns 9ns");
            (Ident (cp "run"), cp "5ns")] (cp "run")).
  reflexivity.
Defined.

(** ** Times the pattern does not match, and times that raise *)

Section TimeEdges.

Variable db : unicode_db.

Lemma digit_or_dot_not_space (c : char) :
  digit_or_dot db c = true -> is_space c = false.
Proof.
  unfold digit_or_dot. intros H. apply orb_true_iff in H. destruct H as [H|H].
  - now apply (digit_not_space db).
  - apply N.eqb_eq in H. now subst c.
Qed.

(** A text that is not all blanks: its blanks, then a character that is
    not one. *)
Lemma first_non_blank (t : str) :
  forallb is_space t = false ->
  exists bl u r, t = bl ++ u :: r /\ forallb is_space bl = true /\
                 is_space u = false.
Proof.
  induction t as [|c t IH]; [discriminate|]. cbn [forallb].
  destruct (is_space c) eqn:Ec.
  - intros H. destruct (IH H) as [bl [u [r [-> [Pb Pu]]]]].
    exists (c :: bl), u, r. cbn [forallb]. now rewrite Ec, Pb.
  - intros _. now exists [], c, t.
Qed.

Lemma time_re_none (s : str) :
  re_match (time_re db) s = None <->
  starts (digit_or_dot db) s = false \/ forallb is_space (tl s) = true.
Proof.
  split.
  - intros N. destruct (starts (digit_or_dot db) s) eqn:S; [|now left]. right.
    destruct (forallb is_space (tl s)) eqn:B; [reflexivity|]. exfalso.
    destruct s as [|c t]; [discriminate|]. cbn [starts] in S. cbn [tl] in B.
    destruct (first_non_blank t B) as [bl [u [r [-> [Pb Pu]]]]].
    assert (H : In (r, [(2, [u]); (1, [c])])
                   (run (time_re db) (c :: bl ++ u :: r) [])).
    { unfold time_re. apply In_run_Cat. exists (bl ++ u :: r), [(1, [c])]. split.
      - apply In_run_Grp. exists []. split.
        + apply In_run_Plus. split; [reflexivity|]. exists [c].
          repeat split; [discriminate|cbn [forallb]; now rewrite S].
        + change (c :: bl ++ u :: r) with ([c] ++ bl ++ u :: r).
          now rewrite firstn_consumed.
      - apply In_run_Cat. exists (u :: r), [(1, [c])]. split.
        + apply In_run_Star. split; [reflexivity|]. now exists bl.
        + apply In_run_Grp. exists [(1, [c])]. split.
          * apply In_run_Plus. split; [reflexivity|]. exists [u].
            repeat split; [discriminate|].
            cbn [forallb]. unfold non_space. now rewrite Pu.
          * change (u :: r) with ([u] ++ r). now rewrite firstn_consumed. }
    unfold re_match in N. destruct (run (time_re db) (c :: bl ++ u :: r) []);
      [destruct H|discriminate].
  - intros [S|B].
    + unfold re_match, time_re. cbn [run]. now rewrite (splits_stop _ s S).
    + destruct (re_match (time_re db) s) as [[rest g]|] eqn:M; [|reflexivity].
      exfalso. apply time_re_inv in M.
      destruct M as [num [blanks [unit [-> [Nn [Pn [Pb [Nu [Pu _]]]]]]]]].
      destruct num as [|c num]; [congruence|]. cbn [app tl] in B.
      rewrite !forallb_app in B. repeat rewrite andb_true_iff in B.
      destruct B as [B1 [_ [B3 _]]].
      destruct unit as [|u unit]; [congruence|].
      cbn [forallb] in B3, Pu. apply andb_true_iff in B3, Pu.
      destruct B3 as [B3 _], Pu as [Pu _]. unfold non_space in Pu.
      rewrite B3 in Pu. discriminate.
Qed.

Lemma digits_without_point (num : str) :
  forallb (digit_or_dot db) num = true -> ~ In 46%N num ->
  forallb (is_digit db) num = true.
Proof.
  rewrite !forallb_forall. intros H N c Hc. specialize (H c Hc).
  unfold digit_or_dot in H. apply orb_true_iff in H. destruct H as [H|H];
    [exact H|].
  apply N.eqb_eq in H. subst c. contradiction.
Qed.

Lemma py_float_value_error (num : str) (e : exn) :
  py_float db num = Raise e -> e = ValueError.
Proof.
  unfold py_float. destruct (read_digits db 0 0 num) as [[ip ni] r1].
  destruct r1 as [|c r2].
  - destruct (Nat.eqb ni 0); congruence.
  - destruct (c =? 46)%N; [|congruence].
    destruct (read_digits db ip 0 r2) as [[m nf] r3].
    destruct r3; [destruct (Nat.eqb (ni + nf) 0)|]; congruence.
Qed.

Lemma parse_time_value_error (s : str) (e : exn) :
  parse_time_to_ns db s = Raise e -> e = ValueError.
Proof.
  unfold parse_time_to_ns.
  destruct (re_match (time_re db) s) as [[rest m]|]; [|discriminate].
  destruct (py_float db (group m 1)) as [v|e'] eqn:F; cbn [bind];
    [discriminate|].
  intros E. injection E as <-. now apply py_float_value_error in F.
Qed.

End TimeEdges.

(** X7: the times the normalizer does not match, which it turns into
    [0.0]: the time pattern fails exactly on a text that does not begin
    with a digit or a point, and on a text that has nothing but blanks
    after its first character (the empty text, a single digit, a digit
    followed by blanks).  Every other text is matched. *)
Theorem time_pattern_misses (db : unicode_db) (s : str) :
  (re_match (time_re db) s = None <->
   starts (digit_or_dot db) s = false \/ forallb is_space (tl s) = true) /\
  (re_match (time_re db) s = None -> parse_time_to_ns db s = Ok 0%float).
Proof.
  split; [apply time_re_none|].
  intros N. unfold parse_time_to_ns. now rewrite N.
Qed.

(** X8: the only exception the normalizer raises is [ValueError], and it
    raises it only on a text that holds a point: a time written without a
    point is always converted. *)
Theorem parse_time_raises_only_on_points
  (db : unicode_db) (s : str) (e : exn) :
  parse_time_to_ns db s = Raise e -> e = ValueError /\ In 46%N s.
Proof.
  intros H. split; [now apply (parse_time_value_error db s)|].
  unfold parse_time_to_ns in H.
  destruct (re_match (time_re db) s) as [[rest m]|] eqn:M; [|discriminate].
  apply time_re_inv in M.
  destruct M as [num [blanks [unit [-> [Nn [Pn [_ [_ [_ ->]]]]]]]]].
  cbn [group Nat.eqb] in H.
  apply in_or_app. left.
  destruct (in_dec N.eq_dec 46%N num) as [I|I]; [exact I|]. exfalso.
  rewrite (py_float_digits db num Nn (digits_without_point db num Pn I)) in H.
  discriminate.
Qed.

Lemma parse_time_raises_only_on_points_witness :
  parse_time_to_ns ascii_db (cp "1.2.3 ns") = Raise ValueError /\
  In 46%N (cp "1.2.3 ns").
Proof.
  split; [reflexivity|].
  apply (parse_time_raises_only_on_points ascii_db (cp "1.2.3 ns") ValueError).
  reflexivity.
Defined.

(** ** The comparator's one exception *)

Lemma eqb_zero_ltb_one (x : float) :
  (x =? 0)%float = true -> (x <? 1)%float = true /\ (1 <? x)%float = false.
Proof.
  rewrite eqb_spec, !ltb_spec.
  change (Prim2SF 0) with (S754_zero false).
  change (Prim2SF 1) with (S754_finite false 4503599627370496 (-52)).
  unfold SFeqb, SFltb.
  destruct (Prim2SF x) as [s|s| |s m e]; cbn [SFcompare];
    try discriminate; try (destruct s; discriminate).
  now split.
Qed.

(** X9: the comparator raises nothing but [ZeroDivisionError], and raises
    it exactly when neither value is zero and their quotient is zero (a
    quotient that underflows): the guard on zero values does not cover the
    division [1.0 / ratio]. *)
Theorem calculate_speedup_raises (main_ns current_ns : float) (e : exn) :
  calculate_speedup main_ns current_ns = Raise e <->
  e = ZeroDivisionError /\
  (main_ns =? 0)%float || (current_ns =? 0)%float = false /\
  (main_ns / current_ns =? 0)%float = true.
Proof.
  unfold calculate_speedup.
  destruct ((main_ns =? 0)%float || (current_ns =? 0)%float) eqn:G.
  - split; [discriminate|]. intros [_ [F _]]. discriminate.
  - apply orb_false_iff in G. destruct G as [_ G].
    unfold py_div at 1. rewrite G. cbn [bind].
    set (ratio := (main_ns / current_ns)%float).
    destruct (ratio =? 0)%float eqn:Z.
    + destruct (eqb_zero_ltb_one ratio Z) as [L1 L2]. rewrite L2, L1.
      unfold py_div. rewrite Z. cbn [bind]. split.
      * intros E. injection E as <-. now repeat split.
      * intros [-> _]. reflexivity.
    + destruct (1 <? ratio)%float.
      * split; [discriminate|]. intros [_ [_ F]]. discriminate.
      * destruct (ratio <? 1)%float.
        -- unfold py_div. rewrite Z. cbn [bind].
           split; [discriminate|]. intros [_ [_ F]]. discriminate.
        -- split; [discriminate|]. intros [_ [_ F]]. discriminate.
Qed.

(** ** Markers, labels and counters *)

Lemma ltb_above_threshold (x : float) :
  (1.1 <? x)%float = true -> (1 <? x)%float = true.
Proof.
  rewrite !ltb_spec.
  change (Prim2SF 1.1) with (S754_finite false 4953959590107546 (-52)).
  change (Prim2SF 1) with (S754_finite false 4503599627370496 (-52)).
  unfold SFltb.
  destruct (Prim2SF x) as [s|s| |s m e]; cbn [SFcompare];
    try discriminate; try (destruct s; intros E; (discriminate E || reflexivity)).
  destruct s; [intros E; (discriminate E || reflexivity)|].
  destruct (Z.compare_spec (-52) e) as [<-| |]; try (intros E; (discriminate E || reflexivity)).
  rewrite !Pos.compare_cont_spec. cbn [Pos.switch_Eq].
  destruct (Pos.compare_spec 4953959590107546 m) as [| L |]; try discriminate.
  intros _. rewrite (proj2 (Pos.compare_lt_iff 4503599627370496 m)); [reflexivity|lia].
Qed.

Lemma ltb_below_threshold (x : float) :
  (x <? 0.9)%float = true -> (x <? 1)%float = true.
Proof.
  rewrite !ltb_spec.
  change (Prim2SF 0.9) with (S754_finite false 8106479329266893 (-53)).
  change (Prim2SF 1) with (S754_finite false 4503599627370496 (-52)).
  unfold SFltb.
  destruct (Prim2SF x) as [s|s| |s m e]; cbn [SFcompare];
    try discriminate; try (destruct s; intros E; (discriminate E || reflexivity)).
  destruct s; [intros E; (discriminate E || reflexivity)|].
  destruct (Z.compare_spec e (-53)) as [->|L|]; try (intros E; (discriminate E || reflexivity)).
  intros _. rewrite (proj2 (Z.compare_lt_iff e (-52))); [reflexivity|lia].
Qed.

Lemma calculate_speedup_inv (main_ns current_ns r : float) (label : str) :
  calculate_speedup main_ns current_ns = Ok (r, label) ->
  (r = 0%float /\ label = cp "N/A") \/
  ((1 <? r)%float = true /\
   label = format_2f r ++ times_sign ++ cp " faster") \/
  ((r <? 1)%float = true /\
   exists x, label = format_2f x ++ times_sign ++ cp " slower (regression)") \/
  (r = 1%float /\ label = cp "Same").
Proof.
  unfold calculate_speedup.
  destruct ((main_ns =? 0)%float || (current_ns =? 0)%float) eqn:G.
  - intros E. injection E as <- <-. now left.
  - apply orb_false_iff in G. destruct G as [_ G].
    unfold py_div at 1. rewrite G. cbn [bind].
    destruct (1 <? main_ns / current_ns)%float eqn:A.
    + intros E. injection E as <- <-. right. left. now split.
    + destruct (main_ns / current_ns <? 1)%float eqn:B.
      * unfold py_div. destruct (main_ns / current_ns =? 0)%float;
          cbn [bind]; [discriminate|].
        intros E. injection E as <- <-. right. right. left.
        split; [exact B|]. now eexists.
      * intros E. injection E as <- <-. right. right. right. now split.
Qed.


Lemma time_of_absent (d : dict record) (bench : str) :
  ~ In bench (keys d) -> time_of d bench = NA.
Proof.
  unfold time_of, keys. induction d as [|[k v] d IH]; [reflexivity|].
  cbn [map fst In find]. intros H.
  destruct (str_eqb k bench) eqn:E.
  - apply str_eqb_eq in E. tauto.
  - apply IH. tauto.
Qed.

Lemma count_one_total (db : unicode_db) (mr cr : dict record)
  (c c' : counts) (bench : str) :
  count_one db mr cr c bench = Ok c' ->
  total c' = (total c + if comparable mr cr bench then 1 else 0)%N.
Proof.
  unfold count_one, comparable.
  destruct (negb (str_eqb (time_of mr bench) NA) &&
            negb (str_eqb (time_of cr bench) NA)).
  - destruct (parse_time_to_ns db (time_of mr bench)) as [x|]; [|discriminate].
    destruct (parse_time_to_ns db (time_of cr bench)) as [y|]; [|discriminate].
    cbn [bind]. destruct (calculate_speedup x y) as [rs|]; [|discriminate].
    cbn [bind].
    destruct (1.1 <? fst rs)%float; [|destruct (fst rs <? 0.9)%float];
      intros E; injection E as <-; unfold total;
      cbn [improvements regressions similar]; lia.
  - intros E. injection E as <-. lia.
Qed.

(** X10: the summary counts what the table marks.  For every benchmark the
    summary loop raises exactly when the row's speedup cell raises, with the
    same exception; otherwise it adds one to the counter of the cell's
    marker (improved, regressed, similar) and leaves the counters alone for
    a cell [N/A]. *)
Theorem summary_counts_the_markers
  (db : unicode_db) (mr cr : dict record) (c : counts) (bench : str) :
  match speedup_cell db (time_of mr bench) (time_of cr bench) with
  | Ok cell => count_one db mr cr c bench = Ok (counted cell c)
  | Raise e => count_one db mr cr c bench = Raise e
  end.
Proof.
  unfold speedup_cell, count_one.
  destruct (negb (str_eqb (time_of mr bench) NA) &&
            negb (str_eqb (time_of cr bench) NA)); [|reflexivity].
  destruct (parse_time_to_ns db (time_of mr bench)) as [x|]; [|reflexivity].
  destruct (parse_time_to_ns db (time_of cr bench)) as [y|]; [|reflexivity].
  cbn [bind]. destruct (calculate_speedup x y) as [rs|]; [|reflexivity].
  cbn [bind].
  destruct (1.1 <? fst rs)%float; [reflexivity|].
  destruct (fst rs <? 0.9)%float; reflexivity.
Qed.

(** X11: the total the summary reports is the number of benchmarks that
    have a time on both sides, not the number of rows: when the summary
    loop returns, the three counters together have grown by the number of
    names whose two times both differ from [N/A]. *)
Theorem summary_total_counts_comparable
  (db : unicode_db) (mr cr : dict record) (c c' : counts) (benches : list str) :
  count_all db mr cr c benches = Ok c' ->
  total c' = (total c + N.of_nat (length (filter (comparable mr cr) benches)))%N.
Proof.
  revert c. induction benches as [|bench l IH]; intros c; cbn [count_all].
  - intros E. injection E as <-. cbn [filter length]. lia.
  - destruct (count_one db mr cr c bench) as [c1|] eqn:E1; [|discriminate].
    cbn [bind]. intros E. apply IH in E. apply count_one_total in E1.
    cbn [filter]. destruct (comparable mr cr bench); cbn [length]; lia.
Qed.

Lemma summary_total_counts_comparable_witness :
  total {| improvements := 1; regressions := 0; similar := 0 |} =
  (total {| improvements := 0; regressions := 0; similar := 0 |} +
   N.of_nat
     (length
        (filter
           (comparable
              (parse_criterion_text ascii_db
                 (cp "a time: [1ns 4ns 5ns]" ++ newline ++
                  cp "b time: [1ns 2ns 3ns]"))
              (parse_criterion_text ascii_db (cp "a time: [1ns 2ns 3ns]")))
           [cp "a"; cp "b"])))%N.
Proof.
  apply (summary_total_counts_comparable ascii_db). reflexivity.
Defined.

(** X12: a benchmark that one of the two files does not have gets a row
    whose speedup cell is the bare [N/A], with [N/A] as the time of the
    side that lacks it, and the summary does not count it. *)
Theorem absent_benchmark_row
  (db : unicode_db) (mr cr : dict record) (c : counts) (bench : str) :
  ~ In bench (keys mr) \/ ~ In bench (keys cr) ->
  acts (print_row db mr cr bench) (Ok tt)
       ((cp "| `" ++ bench ++ cp "` | " ++ time_of mr bench ++ cp " | " ++
         time_of cr bench ++ cp " | " ++ NA ++ cp " |") ++ newline) /\
  count_one db mr cr c bench = Ok c /\
  (~ In bench (keys mr) -> time_of mr bench = NA) /\
  (~ In bench (keys cr) -> time_of cr bench = NA).
Proof.
  intros H.
  assert (G : negb (str_eqb (time_of mr bench) NA) &&
              negb (str_eqb (time_of cr bench) NA) = false).
  { destruct H as [H|H]; rewrite (time_of_absent _ _ H), str_eqb_refl;
      [reflexivity|apply andb_false_r]. }
  split; [|split; [|split; apply time_of_absent]].
  - unfold print_row, speedup_cell. rewrite G.
    change (?x ++ newline) with ([] ++ x ++ newline) at 1.
    eapply acts_bind_ok; [apply acts_lift|apply acts_print].
  - unfold count_one. now rewrite G.
Qed.

Lemma absent_benchmark_row_witness :
  count_one ascii_db
    (parse_criterion_text ascii_db (cp "a time: [1ns 2ns 3ns]")) []
    {| improvements := 0; regressions := 0; similar := 0 |} (cp "a") =
  Ok {| improvements := 0; regressions := 0; similar := 0 |}.
Proof.
  apply (absent_benchmark_row ascii_db). right. intros [].
Defined.

(** X13: marker and label of a speedup cell agree.  A cell is the bare
    [N/A]; or the improvement marker with a "faster" label; or the
    regression marker with a "slower (regression)" label or with [N/A]
    (a time that normalizes to zero); or the similar marker with a
    "faster", "slower (regression)" or "Same" label.  The improvement
    marker never stands before "slower" or "Same", nor the regression
    marker before "faster" or "Same". *)
Theorem marker_agrees_with_label
  (db : unicode_db) (main_time current_time cell : str) :
  speedup_cell db main_time current_time = Ok cell ->
  cell = NA \/
  (exists x, cell = mark_improved ++ cp " " ++
                    format_2f x ++ times_sign ++ cp " faster") \/
  cell = mark_regressed ++ cp " " ++ NA \/
  (exists x, cell = mark_regressed ++ cp " " ++
                    format_2f x ++ times_sign ++ cp " slower (regression)") \/
  (exists x, cell = mark_similar ++ cp " " ++
                    format_2f x ++ times_sign ++ cp " faster") \/
  (exists x, cell = mark_similar ++ cp " " ++
                    format_2f x ++ times_sign ++ cp " slower (regression)") \/
  cell = mark_similar ++ cp " " ++ cp "Same".
Proof.
  unfold speedup_cell.
  destruct (negb (str_eqb main_time NA) && negb (str_eqb current_time NA));
    [|intros E; injection E as <-; now left].
  destruct (parse_time_to_ns db main_time) as [x|]; [|discriminate].
  destruct (parse_time_to_ns db current_time) as [y|]; [|discriminate].
  cbn [bind]. destruct (calculate_speedup x y) as [[r label]|] eqn:C;
    [|discriminate].
  cbn [bind fst snd]. apply calculate_speedup_inv in C.
  destruct (1.1 <? r)%float eqn:A; [|destruct (r <? 0.9)%float eqn:B];
    intros E; injection E as <-;
    destruct C as [[-> ->]|[[L ->]|[[L [z ->]]|[-> ->]]]].
  - vm_compute in A. discriminate A.
  - right. left. now exists r.
  - apply ltb_above_threshold in A. apply ltb_one_asym in L. congruence.
  - vm_compute in A. discriminate A.
  - right. right. now left.
  - apply ltb_below_threshold, ltb_one_asym in B. congruence.
  - right. right. right. left. now exists z.
  - vm_compute in B. discriminate B.
  - vm_compute in B. discriminate B.
  - right. right. right. right. left. now exists r.
  - right. right. right. right. right. left. now exists z.
  - right. right. right. right. right. now right.
Qed.

Lemma marker_agrees_with_label_witness :
  speedup_cell ascii_db (cp "12ns") (cp "6ns") = Ok example_cell /\
  (example_cell = NA \/
   (exists x, example_cell = mark_improved ++ cp " " ++
                             format_2f x ++ times_sign ++ cp " faster") \/
   example_cell = mark_regressed ++ cp " " ++ NA \/
   (exists x, example_cell = mark_regressed ++ cp " " ++
                             format_2f x ++ times_sign ++ cp " slower (regression)") \/
   (exists x, example_cell = mark_similar ++ cp " " ++
                             format_2f x ++ times_sign ++ cp " faster") \/
   (exists x, example_cell = mark_similar ++ cp " " ++
                             format_2f x ++ times_sign ++ cp " slower (regression)") \/
   example_cell = mark_similar ++ cp " " ++ cp "Same").
Proof.
  split; [vm_compute; reflexivity|].
  apply (marker_agrees_with_label ascii_db (cp "12ns") (cp "6ns")).
  vm_compute. reflexivity.
Defined.

(** ** How a run ends *)









Section Endings.

Variable db : unicode_db.
Variables mr cr : dict record.







(** The report on two empty mappings: no table, and a summary of zeros
    with neither of the two closing messages. *)
Lemma report_rest_empty :
  acts (report_rest db [] []) (Ok tt)
       (lines (summary_lines (cp "0") (cp "0") (cp "0") (cp "0"))).
Proof.
  destruct (regular_report_rest db [] []) as [r [o H]].
  pose proof (H {| stdout := []; stderr := [] |}) as H0.
  vm_compute in H0. injection H0 as <- <-. exact H.
Qed.

End Endings.





(** X16: two files in which the parser finds nothing give a report
    without tables: the header, then the summary with a total of 0 and
    three counts of 0, no closing message, and status 0. *)
Theorem empty_mappings_report
  (db : unicode_db) (argv : list str) (fs : files) (main_text current_text : str) :
  length argv = 3 ->
  fs (nth 1 argv []) = Some main_text ->
  fs (nth 2 argv []) = Some current_text ->
  parse_criterion_text db main_text = [] ->
  parse_criterion_text db current_text = [] ->
  run_script db argv fs =
    (Exited 0,
     {| stdout := header (nth 1 argv []) (nth 2 argv []) ++
                  lines (summary_lines (cp "0") (cp "0") (cp "0") (cp "0"));
        stderr := [] |}).
Proof.
  intros L Hm Hc Em Ec.
  apply (run_report db argv fs main_text current_text (Ok tt)); try assumption.
  rewrite Em, Ec. apply report_rest_empty.
Qed.

Lemma empty_mappings_report_witness :
  run_script ascii_db example_argv (example_files [] (cp "no benchmark here")) =
    (Exited 0,
     {| stdout := header (nth 1 example_argv []) (nth 2 example_argv []) ++
                  lines (summary_lines (cp "0") (cp "0") (cp "0") (cp "0"));
        stderr := [] |}).
Proof.
  apply (empty_mappings_report ascii_db example_argv
           (example_files [] (cp "no benchmark here"))
           [] (cp "no benchmark here"));
    reflexivity.
Defined.
